(** * Safe High-Rise: the 3D viewer core (the Viewer3D component)

    A shallow embedding of the [DetailedBuilding] component and of the
    [Viewer3D] snapshot handle, followed by the properties of the style
    resolver, the floor generator, the per-frame hazard update and the
    per-floor render rules.

    Conventions of the embedding.
    - A JavaScript Number is a real number ([R]); binary64 rounding, NaN and
      the infinities are outside the model.  Decimal literals of the source
      ([0.02], [1.2], ...) are the exact decimals.
    - [undefined] / [null] / a missing property is [None].
    - A JavaScript string is a [string] of ASCII characters; [toLowerCase]
      and [toUpperCase] act on the letters A-Z / a-z.
    - A React element tree is a record of the meshes it mounts; a mesh that
      receives no geometry child has [geometry = None] (three.js then keeps
      its empty default buffer geometry, which draws nothing).  Attributes
      that are the same literal on every render and play no part in layout
      ([transparent], [side], [thickness], shadows, the React [key]) are
      left out of the records. *)

From Stdlib Require Import Reals Lra Lia List String Ascii Bool Arith.
From Stdlib Require Import Machin.
Import ListNotations.

Open Scope string_scope.
Open Scope R_scope.

(** ** JavaScript helpers *)

Module JS.

(** [x || d] on an optional Number: [undefined] and [0] are falsy. *)
Definition num_or (x : option R) (d : R) : R :=
  match x with
  | Some v => if Req_dec_T v 0 then d else v
  | None => d
  end.

(** [x || d] on an optional string: [undefined] and [""] are falsy. *)
Definition str_or (x : option string) (d : string) : string :=
  match x with
  | Some EmptyString => d
  | Some s => s
  | None => d
  end.

Definition is_upper (c : ascii) : bool :=
  let n := nat_of_ascii c in (65 <=? n)%nat && (n <=? 90)%nat.

Definition is_lower (c : ascii) : bool :=
  let n := nat_of_ascii c in (97 <=? n)%nat && (n <=? 122)%nat.

Definition lower_char (c : ascii) : ascii :=
  if is_upper c then ascii_of_nat (nat_of_ascii c + 32) else c.

Definition upper_char (c : ascii) : ascii :=
  if is_lower c then ascii_of_nat (nat_of_ascii c - 32) else c.

Fixpoint toLowerCase (s : string) : string :=
  match s with
  | EmptyString => EmptyString
  | String c t => String (lower_char c) (toLowerCase t)
  end.

Fixpoint toUpperCase (s : string) : string :=
  match s with
  | EmptyString => EmptyString
  | String c t => String (upper_char c) (toUpperCase t)
  end.

(** [hay.includes(needle)]: [needle] occurs somewhere in [hay]. *)
Fixpoint includes (hay needle : string) : bool :=
  prefix needle hay
  || match hay with
     | EmptyString => false
     | String _ t => includes t needle
     end.

(** [s?.includes(needle)] used as a condition: [undefined] is falsy. *)
Definition opt_includes (s : option string) (needle : string) : bool :=
  match s with
  | Some h => includes h needle
  | None => false
  end.

(** [a > b] on Numbers. *)
Definition gt (a b : R) : bool := if Rlt_dec b a then true else false.

(** [x === "lit"] for a possibly undefined property. *)
Definition strict_eq (x : option string) (lit : string) : bool :=
  match x with
  | Some s => String.eqb s lit
  | None => false
  end.

End JS.

(** ** THREE.MathUtils *)

Module MathUtils.

(** [lerp(x, y, t) = (1 - t) * x + t * y] *)
Definition lerp (x y t : R) : R := (1 - t) * x + t * y.

End MathUtils.

(** ** The result object handed to the viewer *)

Record Profile := {
  seismic_zone : option string;
  flood_risk : option string;
  max_wind_speed : option R
}.

Record Recommendations := {
  structure : option string;
  material : option string
}.

Record GeometryParams := {
  type : option string;
  height : option R;
  taper : option R;
  twist : option R
}.

Record Params := {
  profile : option Profile;
  recommendations : option Recommendations;
  geometry_params : option GeometryParams
}.

(** [params?.geometry_params || {}] *)
Definition emptyGeo : GeometryParams :=
  {| type := None; height := None; taper := None; twist := None |}.

Definition geoParams (params : Params) : GeometryParams :=
  match geometry_params params with
  | Some g => g
  | None => emptyGeo
  end.

(** The object the dashboard passes before any analysis: [result || {}]. *)
Definition emptyParams : Params :=
  {| profile := None; recommendations := None; geometry_params := None |}.

(** Simulation mode: [null] (idle) or one of the three strings. *)
Inductive Sim := quake | flood | fire.

Definition Sim_eqb (a b : Sim) : bool :=
  match a, b with
  | quake, quake | flood, flood | fire, fire => true
  | _, _ => false
  end.

(** [simulationMode === s] *)
Definition mode_is (m : option Sim) (s : Sim) : bool :=
  match m with
  | Some a => Sim_eqb a s
  | None => false
  end.

(** ** Style resolver *)

Record MaterialStyle := {
  color : string;
  roughness : R;
  metalness : R;
  name : string;
  emissive : option string;
  emissiveIntensity : option R
}.

Definition ecoBioSkin : MaterialStyle :=
  {| color := "#166534"; roughness := 1.0; metalness := 0.1;
     name := "Eco-Resilient Bio-Skin";
     emissive := Some "#064e3b"; emissiveIntensity := Some 0.2 |}.

Definition advancedCompositeAlloy : MaterialStyle :=
  {| color := "#1e293b"; roughness := 0.2; metalness := 0.8;
     name := "Advanced Composite Alloy";
     emissive := Some "#0f172a"; emissiveIntensity := Some 0.1 |}.

Definition smartNanoStructure : MaterialStyle :=
  {| color := "#4f46e5"; roughness := 0.1; metalness := 0.9;
     name := "Smart Nano-Structure";
     emissive := Some "#312e81"; emissiveIntensity := Some 0.4 |}.

Definition uhpcGeopolymer : MaterialStyle :=
  {| color := "#94a3b8"; roughness := 0.7; metalness := 0.2;
     name := "UHPC Geopolymer";
     emissive := None; emissiveIntensity := None |}.

Definition resilientHybridComposite : MaterialStyle :=
  {| color := "#64748b"; roughness := 0.3; metalness := 0.7;
     name := "Resilient Hybrid Composite";
     emissive := None; emissiveIntensity := None |}.

(** [params?.recommendations?.material?.toLowerCase() || ""] *)
Definition materialRec (params : Params) : string :=
  JS.str_or
    (match recommendations params with
     | Some r => option_map JS.toLowerCase (material r)
     | None => None
     end) "".

Definition structureRec (params : Params) : string :=
  JS.str_or
    (match recommendations params with
     | Some r => option_map JS.toLowerCase (structure r)
     | None => None
     end) "".

(** Does [mat] contain one of the keywords? ([a || b || ...]) *)
Definition includes_any (mat : string) (keys : list string) : bool :=
  existsb (JS.includes mat) keys.

Definition materialStyle (materialRec : string) : MaterialStyle :=
  let mat := JS.toLowerCase materialRec in
  if includes_any mat
       ["living"; "moss"; "forest"; "algae"; "bio"; "timber"; "bamboo"]
  then ecoBioSkin
  else if includes_any mat
       ["carbon"; "graphene"; "titanium"; "alloy"; "fiber"]
  then advancedCompositeAlloy
  else if includes_any mat
       ["smart"; "kinetic"; "memory"; "nanopolymer"; "self-healing"]
  then smartNanoStructure
  else if includes_any mat
       ["concrete"; "uhpc"; "geopolymer"; "ceramic"]
  then uhpcGeopolymer
  else resilientHybridComposite.

Record Topology := {
  hasDiagrid : bool;
  hasThickColumns : bool;
  hasOutriggers : bool
}.

Definition topology (structureRec : string) : Topology :=
  {| hasDiagrid :=
       JS.includes structureRec "diagrid"
       || JS.includes structureRec "exoskeleton"
       || JS.includes structureRec "helical";
     hasThickColumns :=
       JS.includes structureRec "tube"
       || JS.includes structureRec "mega"
       || JS.includes structureRec "buttressed";
     hasOutriggers :=
       JS.includes structureRec "outrigger"
       || JS.includes structureRec "belt" |}.

(** The recommendation of the concrete scenario. *)
Definition selfHealingGraphene : Params :=
  {| profile := None;
     recommendations :=
       Some {| structure := Some "Diagrid Exoskeleton with Outrigger Belts";
               material := Some "Self-Healing Graphene Composite" |};
     geometry_params := None |}.

(** ** Parsed parameters *)

Definition heightOf (params : Params) : R :=
  JS.num_or (height (geoParams params)) 300.

Definition floorCount : nat := 30.

Definition floorHeight : R := 1.2.

Definition taperRatio (params : Params) : R :=
  JS.num_or (taper (geoParams params)) 1.0.

Definition twistTotal (params : Params) : R :=
  JS.num_or (twist (geoParams params)) 0 * (PI / 180).

(** [params?.profile?.seismic_zone] and [params?.profile?.flood_risk] *)
Definition seismicZone (params : Params) : option string :=
  match profile params with
  | Some p => seismic_zone p
  | None => None
  end.

Definition floodRiskText (params : Params) : option string :=
  match profile params with
  | Some p => flood_risk p
  | None => None
  end.

Definition seismicPGA (params : Params) : R :=
  if JS.opt_includes (seismicZone params) "High" then 0.05 else 0.02.

Definition floodRisk (params : Params) : R :=
  if JS.opt_includes (floodRiskText params) "High" then 15 else 5.

(** ** Geometry generator *)

Module Floor.

Record t := {
  y : R;
  scale : R;
  rotation : R;
  id : nat;
  isDiagridNode : bool
}.

End Floor.

(** The body of the [map] callback of [floors]. *)
Definition floorAt (taperRatio twistTotal : R) (i : nat) : Floor.t :=
  let progress := INR i / INR floorCount in
  let currentScale := 1.0 - (1.0 - taperRatio) * progress in
  let currentRotation := twistTotal * progress in
  {| Floor.y := INR i * floorHeight * 2.5;
     Floor.scale := currentScale;
     Floor.rotation := currentRotation;
     Floor.id := i;
     Floor.isDiagridNode := (i mod 4 =? 0)%nat |}.

(** [Array.from({ length: floorCount }).map((_, i) => ...)] *)
Definition floors (params : Params) : list Floor.t :=
  map (floorAt (taperRatio params) (twistTotal params)) (seq 0 floorCount).

(** The per-floor conditions the render tests inline. *)
Definition isMechanicalFloor (i : nat) : bool :=
  (i mod 15 =? 0)%nat && (0 <? i)%nat.

Definition isBalconyFloor (i : nat) : bool :=
  (i mod 5 =? 0)%nat && (0 <? i)%nat.

(** ** Per-frame update *)

(** [groupRef.current.rotation] *)
Module Euler.

Record t := { x : R; y : R; z : R }.

End Euler.

(** [waterRef.current]: [position.y] and [material.opacity] *)
Module Water.

Record t := { position_y : R; opacity : R }.

End Water.

(** The two refs; [None] while the object is not mounted. *)
Record Refs := {
  groupRef : option Euler.t;
  waterRef : option Water.t
}.

(** The state right after mount: the group is unrotated, the water plane
    sits at [position={[0, -5, 0]}] with [opacity={0}]. *)
Definition mounted : Refs :=
  {| groupRef := Some {| Euler.x := 0; Euler.y := 0; Euler.z := 0 |};
     waterRef := Some {| Water.position_y := -5; Water.opacity := 0 |} |}.

(** 1. Base rotation *)
Definition baseRotation (isCutaway : bool) (simulationMode : option Sim)
  (g : Euler.t) : Euler.t :=
  match simulationMode with
  | None =>
      if negb isCutaway
      then {| Euler.x := Euler.x g; Euler.y := Euler.y g + 0.002;
              Euler.z := Euler.z g |}
      else g
  | Some _ => g
  end.

(** 2. Seismic simulation, or the return to upright *)
Definition seismic (params : Params) (isCutaway : bool)
  (simulationMode : option Sim) (time : R) (g : Euler.t) : Euler.t :=
  if mode_is simulationMode quake then
    let swayX := sin (time * 5) * seismicPGA params * 2 in
    let swayZ := cos (time * 4) * seismicPGA params * 2 in
    let twist := sin (time * 8) * (seismicPGA params / 2) in
    {| Euler.x := swayZ;
       Euler.y := if negb isCutaway then Euler.y g + twist else Euler.y g;
       Euler.z := swayX |}
  else
    {| Euler.x := MathUtils.lerp (Euler.x g) 0 0.1;
       Euler.y := Euler.y g;
       Euler.z := MathUtils.lerp (Euler.z g) 0 0.1 |}.

(** 3. Flood simulation, or the recession *)
Definition floodStep (params : Params) (simulationMode : option Sim)
  (w : Water.t) : Water.t :=
  if mode_is simulationMode flood then
    let targetHeight := floodRisk params in
    {| Water.position_y :=
         MathUtils.lerp (Water.position_y w) (targetHeight / 2) 0.02;
       Water.opacity := MathUtils.lerp (Water.opacity w) 0.8 0.02 |}
  else
    {| Water.position_y := MathUtils.lerp (Water.position_y w) (-5) 0.05;
       Water.opacity := MathUtils.lerp (Water.opacity w) 0 0.05 |}.

(** The [useFrame] callback: [time] is [state.clock.getElapsedTime()].
    Every branch is guarded by its ref being set. *)
Definition useFrame (params : Params) (isCutaway : bool)
  (simulationMode : option Sim) (time : R) (r : Refs) : Refs :=
  {| groupRef :=
       option_map
         (fun g => seismic params isCutaway simulationMode time
                     (baseRotation isCutaway simulationMode g))
         (groupRef r);
     waterRef := option_map (floodStep params simulationMode) (waterRef r) |}.

(** One rendered frame: the props in force and the clock reading. *)
Record Frame := {
  f_isCutaway : bool;
  f_mode : option Sim;
  f_time : R
}.

Definition runFrame (params : Params) (r : Refs) (f : Frame) : Refs :=
  useFrame params (f_isCutaway f) (f_mode f) (f_time f) r.

Definition runFrames (params : Params) (fs : list Frame) (r : Refs) : Refs :=
  fold_left (runFrame params) fs r.

(** The dashboard's simulation buttons:
    [setActiveSim(activeSim === s ? null : s)] *)
Definition toggleSim (activeSim : option Sim) (s : Sim) : option Sim :=
  if mode_is activeSim s then None else Some s.

(** ** The scene the component mounts *)

Definition Vec3 : Type := (R * R * R)%type.

Definition origin : Vec3 := (0, 0, 0).

(** [new THREE.Plane(normal, constant)] *)
Record Plane := {
  normal : Vec3;
  constant : R
}.

Definition clipPlanes (isCutaway : bool) : list Plane :=
  if negb isCutaway then []
  else [ {| normal := (-1, 0, 0); constant := 0 |} ].

Inductive Geometry :=
| cylinderGeometry (radiusTop radiusBottom h : R) (radialSegments : nat)
| boxGeometry (width h depth : R)
| planeGeometry (width h : R).

Module Mat.

Record t := {
  color : string;
  metalness : option R;
  roughness : option R;
  emissive : option string;
  emissiveIntensity : option R;
  transmission : option R;
  opacity : option R;
  clippingPlanes : list Plane
}.

(** A material that sets its color and is clipped. *)
Definition clipped (c : string) (planes : list Plane) : t :=
  {| color := c; metalness := None; roughness := None; emissive := None;
     emissiveIntensity := None; transmission := None; opacity := None;
     clippingPlanes := planes |}.

End Mat.

Module Mesh.

Record t := {
  position : Vec3;
  rotation : Vec3;
  geometry : option Geometry;
  material : Mat.t
}.

End Mesh.

(** An [<Html>] callout. *)
Record Label := {
  anchor : Vec3;
  text : string
}.

(** The six geometry children every per-floor layer repeats, with the
    layer's own constants: [r] for cylinder / hexagon / prism, [rTri] for
    triangle / pyramid, thickness [h] and the side of the box.  The tests
    are on one value, so at most one child is mounted; when none of them
    holds the mesh receives no geometry. *)
Definition profileGeometry (ty : option string) (r rTri h side scale : R)
  : option Geometry :=
  if JS.strict_eq ty "cylinder"
  then Some (cylinderGeometry (r * scale) (r * scale) h 32)
  else if JS.strict_eq ty "hexagon"
  then Some (cylinderGeometry (r * scale) (r * scale) h 6)
  else if JS.strict_eq ty "triangle"
  then Some (cylinderGeometry (rTri * scale) (rTri * scale) h 3)
  else if JS.strict_eq ty "pyramid"
  then Some (cylinderGeometry 0 (rTri * scale) h 4)
  else if JS.strict_eq ty "prism"
  then Some (cylinderGeometry (r * scale) (r * scale) h 3)
  else if JS.strict_eq ty "box" || JS.strict_eq ty "tapered"
          || JS.strict_eq ty "twisted"
  then Some (boxGeometry side h side)
  else None.

Definition slabGeometry (ty : option string) (scale : R) :=
  profileGeometry ty 5 6 0.5 10 scale.

Definition innerLayerGeometry (ty : option string) (scale : R) :=
  profileGeometry ty 4.2 5.0 0.15 9.0 scale.

Definition insulationGeometry (ty : option string) (scale : R) :=
  profileGeometry ty 4.5 5.3 0.08 9.5 scale.

Definition mechanicalGeometry (ty : option string) (scale : R) :=
  profileGeometry ty 4.8 5.8 0.8 9.8 scale.

Definition facadeGeometry (ty : option string) (scale : R) :=
  profileGeometry ty 4.9 5.8 2 9.8 scale.

(** Fire pulse style *)
Definition fireEmissive (simulationMode : option Sim) (st : MaterialStyle)
  : string :=
  if mode_is simulationMode fire then "#ef4444"
  else JS.str_or (emissive st) "#000000".

Definition fireIntensity (simulationMode : option Sim) (st : MaterialStyle)
  : R :=
  if mode_is simulationMode fire then 2.0
  else JS.num_or (emissiveIntensity st) 0.

(** Everything the render closes over. *)
Record Props := {
  params : Params;
  isCutaway : bool;
  simulationMode : option Sim
}.

(** [arr.map((pos, idx) => f idx pos)] *)
Definition mapi {A B : Type} (f : nat -> A -> B) (l : list A) : list B :=
  map (fun ip => f (fst ip) (snd ip)) (combine (seq 0 (List.length l)) l).

Section Render.

Variable p : Props.

Let ty : option string := type (geoParams (params p)).
Let style : MaterialStyle := materialStyle (materialRec (params p)).
Let clip : list Plane := clipPlanes (isCutaway p).
Let topo : Topology := topology (structureRec (params p)).

Definition slab (floor : Floor.t) : Mesh.t :=
  {| Mesh.position := (0, 0, 0);
     Mesh.rotation := origin;
     Mesh.geometry := slabGeometry ty (Floor.scale floor);
     Mesh.material :=
       {| Mat.color := color style;
          Mat.metalness := Some (metalness style);
          Mat.roughness := Some (roughness style);
          Mat.emissive := Some (fireEmissive (simulationMode p) style);
          Mat.emissiveIntensity :=
            Some (fireIntensity (simulationMode p) style);
          Mat.transmission := None;
          Mat.opacity := None;
          Mat.clippingPlanes := clip |} |}.

(** Layer 1: structural core ribs *)
Definition rib (angle : R) : Mesh.t :=
  {| Mesh.position := origin;
     Mesh.rotation := (0, angle * (PI / 180), 0);
     Mesh.geometry := Some (boxGeometry 4.5 0.3 0.2);
     Mesh.material :=
       {| Mat.color := "#475569";
          Mat.metalness := Some 0.7;
          Mat.roughness := Some 0.3;
          Mat.emissive := None;
          Mat.emissiveIntensity := None;
          Mat.transmission := None;
          Mat.opacity := None;
          Mat.clippingPlanes := clip |} |}.

(** Layer 2: material-specific inner layer *)
Definition layerColor : string :=
  let mat := materialRec (params p) in
  if JS.includes mat "self-healing" || JS.includes mat "graphene"
     || JS.includes mat "nanopolymer"
  then "#818cf8"
  else if JS.includes mat "living" || JS.includes mat "bio"
          || JS.includes mat "timber"
  then "#22c55e"
  else color style.

Definition innerLayer (floor : Floor.t) : Mesh.t :=
  {| Mesh.position := (0, 0.8, 0);
     Mesh.rotation := origin;
     Mesh.geometry := innerLayerGeometry ty (Floor.scale floor);
     Mesh.material :=
       {| Mat.color := layerColor;
          Mat.metalness := None;
          Mat.roughness := None;
          Mat.emissive := emissive style;
          Mat.emissiveIntensity := Some 0.2;
          Mat.transmission := None;
          Mat.opacity := Some 0.5;
          Mat.clippingPlanes := clip |} |}.

Definition insulation (floor : Floor.t) : Mesh.t :=
  {| Mesh.position := (0, 1.2, 0);
     Mesh.rotation := origin;
     Mesh.geometry := insulationGeometry ty (Floor.scale floor);
     Mesh.material :=
       {| Mat.color := "#fbbf24";
          Mat.metalness := None;
          Mat.roughness := None;
          Mat.emissive := None;
          Mat.emissiveIntensity := None;
          Mat.transmission := None;
          Mat.opacity := Some 0.3;
          Mat.clippingPlanes := clip |} |}.

(** X-ray labels, placed relative to their group at [[0, 2, 0]] *)
Definition xrayLabels : list Label :=
  [ {| anchor := (-3, 0, 0);
       text := "CORE RIBS: "
               ++ (if JS.includes (structureRec (params p)) "steel"
                   then "STEEL" else "REINFORCED CONCRETE") |};
    {| anchor := (0, 0.8, -4);
       text := "MATERIAL CORE: " ++ JS.toUpperCase (name style) |};
    {| anchor := (3, 1.5, 0); text := "ACTIVE INSULATION / DAMPING" |};
    {| anchor := (0, 1, 6); text := "ADAPTIVE FACADE SKIN" |} ].

Record CutawayLayers := {
  ribs : list Mesh.t;
  inner : Mesh.t;
  damping : option Mesh.t;
  labels : list Label
}.

Definition cutawayLayers (floor : Floor.t) (i : nat) : CutawayLayers :=
  {| ribs := map rib [0; 90; 180; 270];
     inner := innerLayer floor;
     damping := if (i mod 3 =? 0)%nat then Some (insulation floor) else None;
     labels := if (i =? 15)%nat then xrayLabels else [] |}.

(** Balconies *)
Definition balconyRadius (floor : Floor.t) : R :=
  if JS.strict_eq ty "cylinder" || JS.strict_eq ty "prism"
  then 5.2 * Floor.scale floor
  else if JS.strict_eq ty "hexagon"
  then 5.2 * Floor.scale floor
  else if JS.strict_eq ty "triangle" || JS.strict_eq ty "pyramid"
  then 6.2 * Floor.scale floor
  else 5.5.

Definition balcony (floor : Floor.t) (angle : R) : Mesh.t :=
  let radius := balconyRadius floor in
  let angleRad := (angle * PI) / 180 in
  let x := cos angleRad * radius in
  let z := sin angleRad * radius in
  {| Mesh.position := (x, 1, z);
     Mesh.rotation := (0, angleRad, 0);
     Mesh.geometry := Some (boxGeometry 2 0.1 1.5);
     Mesh.material :=
       {| Mat.color := "#94a3b8";
          Mat.metalness := Some 0.6;
          Mat.roughness := Some 0.4;
          Mat.emissive := None;
          Mat.emissiveIntensity := None;
          Mat.transmission := None;
          Mat.opacity := None;
          Mat.clippingPlanes := [] |} |}.

(** Mechanical floors *)
Definition mechanical (floor : Floor.t) : Mesh.t :=
  {| Mesh.position := (0, 1.5, 0);
     Mesh.rotation := origin;
     Mesh.geometry := mechanicalGeometry ty (Floor.scale floor);
     Mesh.material :=
       {| Mat.color := "#334155";
          Mat.metalness := Some 0.8;
          Mat.roughness := Some 0.2;
          Mat.emissive := None;
          Mat.emissiveIntensity := None;
          Mat.transmission := None;
          Mat.opacity := None;
          Mat.clippingPlanes := clip |} |}.

(** Facade *)
Definition facade (floor : Floor.t) : Mesh.t :=
  {| Mesh.position := (0, 1, 0);
     Mesh.rotation := origin;
     Mesh.geometry := facadeGeometry ty (Floor.scale floor);
     Mesh.material :=
       {| Mat.color :=
            if mode_is (simulationMode p) fire then "#fca5a5"
            else color style;
          Mat.metalness := None;
          Mat.roughness := Some 0.1;
          Mat.emissive := Some (fireEmissive (simulationMode p) style);
          Mat.emissiveIntensity :=
            Some (fireIntensity (simulationMode p) style * 0.2);
          Mat.transmission := Some (if isCutaway p then 0.8 else 0.4);
          Mat.opacity :=
            Some (if mode_is (simulationMode p) fire then 0.3
                  else if isCutaway p then 0.2 else 0.7);
          Mat.clippingPlanes := clip |} |}.

(** Window frames *)
Definition windSpeed : R :=
  JS.num_or
    (match profile (params p) with
     | Some pr => max_wind_speed pr
     | None => None
     end) 30.

Definition baseSegments : nat :=
  if JS.strict_eq ty "cylinder" then 12
  else if JS.strict_eq ty "hexagon" then 6
  else if JS.strict_eq ty "triangle" || JS.strict_eq ty "prism" then 3
  else 4.

(** [Math.floor(baseSegments * 1.5)] is [(3 * baseSegments) / 2]. *)
Definition segments : nat :=
  if JS.gt windSpeed 100 then (baseSegments * 2)%nat
  else if JS.gt windSpeed 70 then ((3 * baseSegments) / 2)%nat
  else baseSegments.

Definition windowFrame (floor : Floor.t) (j : nat) : Mesh.t :=
  let radius := 5.0 * Floor.scale floor in
  let angle := (INR j / INR segments) * PI * 2 in
  let x := cos angle * radius in
  let z := sin angle * radius in
  {| Mesh.position := (x, 1, z);
     Mesh.rotation := (0, angle, 0);
     Mesh.geometry := Some (boxGeometry 0.1 1.8 0.1);
     Mesh.material :=
       {| Mat.color := "#1e293b";
          Mat.metalness := Some 0.9;
          Mat.roughness := None;
          Mat.emissive := None;
          Mat.emissiveIntensity := None;
          Mat.transmission := None;
          Mat.opacity := None;
          Mat.clippingPlanes := [] |} |}.

Definition windowFrames (floor : Floor.t) : list Mesh.t :=
  map (windowFrame floor) (seq 0 segments).

(** Structural overlay: column positions by archetype *)
Definition radial (n : nat) (offset r : R) : list (R * R) :=
  map (fun j =>
         let angle := (INR j / INR n) * PI * 2 + offset in
         (cos angle * r, sin angle * r))
      (seq 0 n).

Definition colPositions (floor : Floor.t) : list (R * R) :=
  let radius := 4.5 * Floor.scale floor in
  if JS.strict_eq ty "cylinder" then radial 8 0 radius
  else if JS.strict_eq ty "hexagon" then radial 6 0 radius
  else if JS.strict_eq ty "triangle" then radial 3 (PI / 6) (radius * 1.2)
  else if JS.strict_eq ty "pyramid" then
    [ (4.5 * Floor.scale floor, 4.5 * Floor.scale floor);
      (-4.5 * Floor.scale floor, 4.5 * Floor.scale floor);
      (4.5 * Floor.scale floor, -4.5 * Floor.scale floor);
      (-4.5 * Floor.scale floor, -4.5 * Floor.scale floor) ]
  else if JS.strict_eq ty "prism" then radial 3 0 radius
  else [ (4.5, 4.5); (-4.5, 4.5); (4.5, -4.5); (-4.5, -4.5) ].

(** Diagrid nodes (angled) *)
Definition diagridNode (idx : nat) (pos : R * R) : Mesh.t :=
  {| Mesh.position := (fst pos, 1, snd pos);
     Mesh.rotation :=
       (0, 0, if (idx mod 2 =? 0)%nat then PI / 4 else - PI / 4);
     Mesh.geometry := Some (cylinderGeometry 0.2 0.2 5 4);
     Mesh.material :=
       {| Mat.color := "#0f172a";
          Mat.metalness := Some 0.8;
          Mat.roughness := Some 0.2;
          Mat.emissive := None;
          Mat.emissiveIntensity := None;
          Mat.transmission := None;
          Mat.opacity := None;
          Mat.clippingPlanes := clip |} |}.

(** Mega columns *)
Definition megaColumn (idx : nat) (pos : R * R) : Mesh.t :=
  {| Mesh.position := (fst pos, 1, snd pos);
     Mesh.rotation := origin;
     Mesh.geometry := Some (cylinderGeometry 0.6 0.6 2 8);
     Mesh.material := Mat.clipped "#334155" clip |}.

(** Standard columns *)
Definition stdColumn (idx : nat) (pos : R * R) : Mesh.t :=
  {| Mesh.position := (fst pos, 1, snd pos);
     Mesh.rotation := origin;
     Mesh.geometry := Some (cylinderGeometry 0.25 0.25 2 8);
     Mesh.material := Mat.clipped "#334155" clip |}.

Definition columns (floor : Floor.t) : list Mesh.t :=
  if hasDiagrid topo then mapi diagridNode (colPositions floor)
  else if hasThickColumns topo then mapi megaColumn (colPositions floor)
  else mapi stdColumn (colPositions floor).

(** Outriggers (belt truss) *)
Definition beltTruss (floor : Floor.t) : Mesh.t :=
  let radius := 4.5 * Floor.scale floor in
  {| Mesh.position := (0, 0.5, 0);
     Mesh.rotation := origin;
     Mesh.geometry :=
       Some
         (if JS.strict_eq ty "cylinder" || JS.strict_eq ty "hexagon"
             || JS.strict_eq ty "prism"
          then cylinderGeometry (radius + 0.5) (radius + 0.5) 0.8
                 (if JS.strict_eq ty "cylinder" then 32
                  else if JS.strict_eq ty "hexagon" then 6 else 3)
          else if JS.strict_eq ty "pyramid"
          then cylinderGeometry 0.5 (radius + 0.5) 0.8 4
          else boxGeometry 10.2 0.8 10.2);
     Mesh.material :=
       {| Mat.color := "#ef4444";
          Mat.metalness := None;
          Mat.roughness := None;
          Mat.emissive := Some "#7f1d1d";
          Mat.emissiveIntensity := Some 0.5;
          Mat.transmission := None;
          Mat.opacity := None;
          Mat.clippingPlanes := clip |} |}.

Definition outrigger (floor : Floor.t) (i : nat) : option Mesh.t :=
  if hasOutriggers topo && (i mod 10 =? 0)%nat
  then Some (beltTruss floor) else None.

(** One element of [floors.map((floor, i) => <group ...>)] *)
Record FloorGroup := {
  descriptor : Floor.t;
  g_position : Vec3;
  g_rotation : Vec3;
  g_scale : Vec3;
  g_slab : Mesh.t;
  g_cutaway : option CutawayLayers;
  g_balconies : list Mesh.t;
  g_mechanical : option Mesh.t;
  g_facade : Mesh.t;
  g_windowFrames : list Mesh.t;
  g_columns : list Mesh.t;
  g_outrigger : option Mesh.t
}.

Definition floorGroup (i : nat) (floor : Floor.t) : FloorGroup :=
  {| descriptor := floor;
     g_position := (0, Floor.y floor, 0);
     g_rotation := (0, Floor.rotation floor, 0);
     g_scale := (Floor.scale floor, 1, Floor.scale floor);
     g_slab := slab floor;
     g_cutaway :=
       if isCutaway p then Some (cutawayLayers floor i) else None;
     g_balconies :=
       if negb (isCutaway p) && isBalconyFloor i
       then map (balcony floor) [0; 90; 180; 270] else [];
     g_mechanical :=
       if isMechanicalFloor i then Some (mechanical floor) else None;
     g_facade := facade floor;
     g_windowFrames :=
       if negb (isCutaway p) && (i mod 2 =? 0)%nat
       then windowFrames floor else [];
     g_columns := columns floor;
     g_outrigger := outrigger floor i |}.

(** Flood plane *)
Definition waterPlane : Mesh.t :=
  {| Mesh.position := (0, -5, 0);
     Mesh.rotation := (- PI / 2, 0, 0);
     Mesh.geometry := Some (planeGeometry 1000 1000);
     Mesh.material :=
       {| Mat.color := "#3b82f6";
          Mat.metalness := None;
          Mat.roughness := Some 0.05;
          Mat.emissive := None;
          Mat.emissiveIntensity := None;
          Mat.transmission := Some 0.9;
          Mat.opacity := Some 0;
          Mat.clippingPlanes := [] |} |}.

(** Foundation podium *)
Definition podium : Mesh.t :=
  {| Mesh.position := (0, -2, 0);
     Mesh.rotation := origin;
     Mesh.geometry :=
       Some (cylinderGeometry
               (if JS.strict_eq ty "pyramid" then 8 else 6.5)
               (if JS.strict_eq ty "pyramid" then 10 else 8)
               4
               (if JS.strict_eq ty "cylinder" then 32
                else if JS.strict_eq ty "hexagon" then 6 else 4));
     Mesh.material :=
       {| Mat.color :=
            if JS.gt (floodRisk (params p)) 10 then "#cbd5e1"
            else "#475569";
          Mat.metalness := None;
          Mat.roughness := Some 0.9;
          Mat.emissive := None;
          Mat.emissiveIntensity := None;
          Mat.transmission := None;
          Mat.opacity := None;
          Mat.clippingPlanes := clip |} |}.

(** Structural pilings, shown for high risk *)
Definition piling (angle : R) : Mesh.t :=
  {| Mesh.position :=
       (cos (angle * PI / 180) * 4, -6, sin (angle * PI / 180) * 4);
     Mesh.rotation := origin;
     Mesh.geometry := Some (cylinderGeometry 0.8 0.8 8 8);
     Mesh.material := Mat.clipped "#334155" clip |}.

Definition pilings : list Mesh.t :=
  if JS.gt (floodRisk (params p)) 10
     || JS.gt (seismicPGA (params p)) 0.04
  then map piling [0; 120; 240] else [].

(** Central core *)
Definition core : Mesh.t :=
  {| Mesh.position := (0, (INR floorCount * floorHeight * 2.5) / 2, 0);
     Mesh.rotation := origin;
     Mesh.geometry :=
       Some (cylinderGeometry 1.5 1.5 (INR floorCount * floorHeight * 2.5) 8);
     Mesh.material :=
       {| Mat.color :=
            if mode_is (simulationMode p) fire then "#7f1d1d"
            else "#475569";
          Mat.metalness := None;
          Mat.roughness := Some 0.8;
          Mat.emissive :=
            Some (if mode_is (simulationMode p) fire then "#ef4444"
                  else "#000000");
          Mat.emissiveIntensity :=
            Some (if mode_is (simulationMode p) fire then 0.5 else 0);
          Mat.transmission := None;
          Mat.opacity := None;
          Mat.clippingPlanes := clip |} |}.

(** Cross-section cut face *)
Definition cutFace : option Mesh.t :=
  if isCutaway p then
    Some {| Mesh.position := (-0.05, heightOf (params p) / 25, 0);
            Mesh.rotation := (0, PI / 2, 0);
            Mesh.geometry :=
              Some (planeGeometry (heightOf (params p) / 5)
                                  (heightOf (params p) / 5));
            Mesh.material :=
              {| Mat.color := "#020617";
                 Mat.metalness := None;
                 Mat.roughness := None;
                 Mat.emissive := None;
                 Mat.emissiveIntensity := None;
                 Mat.transmission := None;
                 Mat.opacity := Some 0.6;
                 Mat.clippingPlanes := [] |} |}
  else None.

(** What [DetailedBuilding] returns. *)
Record Scene := {
  s_water : Mesh.t;
  s_groupPosition : Vec3;
  s_podium : Mesh.t;
  s_pilings : list Mesh.t;
  s_core : Mesh.t;
  s_floors : list FloorGroup;
  s_cutFace : option Mesh.t
}.

Definition DetailedBuilding : Scene :=
  {| s_water := waterPlane;
     s_groupPosition := (0, -15, 0);
     s_podium := podium;
     s_pilings := pilings;
     s_core := core;
     s_floors := mapi floorGroup (floors (params p));
     s_cutFace := cutFace |}.

End Render.

(** ** Viewer3D *)

Module Viewer3D.

(** [const [isCutaway, setIsCutaway] = useState(false)] and the button's
    [onClick={() => setIsCutaway(!isCutaway)}] *)
Definition initialCutaway : bool := false.


(** The building the viewer mounts for its current props and state. *)
Definition building (data : Params) (isCutaway : bool)
  (simulationMode : option Sim) : Scene :=
  DetailedBuilding
    {| params := data; isCutaway := isCutaway;
       simulationMode := simulationMode |}.

(** The part of the DOM the snapshot reads: the elements of the document
    in document order.  A canvas carries its [toDataURL] method, which
    encodes the current drawing buffer in the requested format. *)
Inductive Element :=
| canvas (toDataURL : string -> string)
| element (tagName : string).

Definition Document : Type := list Element.

(** How an expression completes. *)
Inductive Completion (A : Type) :=
| Returns (v : A)
| Throws.

Arguments Returns {A} v.
Arguments Throws {A}.

(** [document.querySelector('canvas')]: the first canvas, or [null]. *)
Fixpoint querySelectorCanvas (doc : Document) : option (string -> string) :=
  match doc with
  | [] => None
  | canvas f :: _ => Some f
  | element _ :: rest => querySelectorCanvas rest
  end.

(** [c.toDataURL(format)]: a TypeError when [c] is [null]. *)
Definition callToDataURL (c : option (string -> string)) (format : string)
  : Completion string :=
  match c with
  | Some f => Returns (f format)
  | None => Throws
  end.

(** [captureSnapshot]; [None] is [null]. *)
Definition captureSnapshot (doc : Document) : Completion (option string) :=
  let canvas := querySelectorCanvas doc in
  match canvas with
  | Some _ =>
      match callToDataURL canvas "image/png" with
      | Returns url => Returns (Some url)
      | Throws => Throws
      end
  | None => Returns None
  end.

End Viewer3D.

(** ** Vocabulary of the properties *)

(** Height of the water plane, as read from its ref. *)
Definition waterY (r : Refs) : option R :=
  option_map Water.position_y (waterRef r).

(** A run of frames during which flood is the active simulation, and a run
    during which it is not. *)
Definition flooding (fs : list Frame) : Prop :=
  Forall (fun a => f_mode a = Some flood) fs.

Definition notFlooding (fs : list Frame) : Prop :=
  Forall (fun a => f_mode a <> Some flood) fs.

(** [floodStep] folded over a run of frames. *)
Definition floodSteps (params : Params) (fs : list Frame) (w : Water.t)
  : Water.t :=
  fold_left (fun w a => floodStep params (f_mode a) w) fs w.

(** Sample frames at clock reading [t]. *)
Definition frameOf (m : option Sim) (t : R) : Frame :=
  {| f_isCutaway := false; f_mode := m; f_time := t |}.

(** Is the element a render surface? *)
Definition isCanvas (e : Viewer3D.Element) : bool :=
  match e with
  | Viewer3D.canvas _ => true
  | Viewer3D.element _ => false
  end.

(** The archetypes the per-floor layers test for. *)
Definition supportedArchetype (ty : option string) : bool :=
  existsb (JS.strict_eq ty)
    ["cylinder"; "hexagon"; "triangle"; "pyramid"; "prism"; "box";
     "tapered"; "twisted"].

(** Where a mesh is and what it is made of, its material apart. *)
Definition shape (m : Mesh.t) : Vec3 * Vec3 * option Geometry :=
  (Mesh.position m, Mesh.rotation m, Mesh.geometry m).

(** Has the mesh a geometry to draw? *)
Definition drawn (m : Mesh.t) : bool :=
  match Mesh.geometry m with
  | Some _ => true
  | None => false
  end.





(** The geometry of the concrete scenario. *)
Definition cylinderTower : Params :=
  {| profile := None;
     recommendations := None;
     geometry_params :=
       Some {| type := Some "cylinder"; height := Some 300;
               taper := Some 0.6; twist := Some 90 |} |}.

(** The props of the concrete scenario: diagrid with outrigger belts on the
    cylinder tower. *)
Definition scenarioProps : Props :=
  {| params :=
       {| profile := None;
          recommendations := recommendations selfHealingGraphene;
          geometry_params := geometry_params cylinderTower |};
     isCutaway := false;
     simulationMode := None |}.


(** [g] with its [height] field replaced. *)
Definition withHeight (g : GeometryParams) (h : option R) : GeometryParams :=
  {| type := type g; height := h; taper := taper g; twist := twist g |}.

(** ** The dashboard around the viewer *)

Module Dashboard.

(** [s.replace(/ /g, c)]: every space becomes [c]. *)
Fixpoint replaceSpaces (c : ascii) (s : string) : string :=
  match s with
  | EmptyString => EmptyString
  | String a t =>
      String (if Ascii.eqb a " " then c else a) (replaceSpaces c t)
  end.

(** The name the report is saved under, from [result.location.name]. *)
Definition reportFileName (name : string) : string :=
  replaceSpaces "_" name ++ "_StrataMind_Report.pdf".

(** The address the material card opens, from
    [result.recommendations.material]. *)
Definition materialSearchUrl (material : string) : string :=
  "https://www.google.com/search?q=" ++ replaceSpaces "+" material
  ++ "+architecture+material+properties".

(** The structure card: the article picked by the first matching term,
    [query] itself when none matches. *)
Definition wikiQuery (struct query : string) : string :=
  if JS.includes struct "diagrid" then "Diagrid"
  else if JS.includes struct "outrigger" then "Outrigger_(structure)"
  else if JS.includes struct "buttressed" then "Buttressed_core"
  else if JS.includes struct "tube" then "Tube_(structure)"
  else if JS.includes struct "exoskeleton" then "Structural_exoskeleton"
  else if JS.includes struct "shear" then "Shear_wall"
  else if JS.includes struct "moment" then "Moment-resisting_frame"
  else if JS.includes struct "bundled" then "Bundled_tube"
  else if JS.includes struct "mega" then "Megaframe"
  else query.

Definition directWiki : list string :=
  ["diagrid"; "outrigger"; "buttressed"; "tube"; "exoskeleton"; "shear";
   "moment"; "bundled"; "mega"].

(** [directWiki.some(term => struct.includes(term))] *)
Definition hasWiki (struct : string) : bool :=
  existsb (fun term => JS.includes struct term) directWiki.

Definition structureUrl (structure : string) : string :=
  let struct := JS.toLowerCase structure in
  let query := wikiQuery struct structure in
  if hasWiki struct
  then "https://en.wikipedia.org/wiki/" ++ query
  else "https://duckduckgo.com/?q=" ++ query
       ++ "+structural+system+architectural+definition&ia=web".

(** The click handler of the structure card, as the address handed to
    [window.open].  [result?.recommendations?.structure.toLowerCase()] is
    [undefined] without recommendations and a TypeError without a structure;
    [struct.includes] on [undefined] is a TypeError as well. *)
Definition structureClick (result : Params)
  : Viewer3D.Completion string :=
  match recommendations result with
  | Some r =>
      match structure r with
      | Some s => Viewer3D.Returns (structureUrl s)
      | None => Viewer3D.Throws
      end
  | None => Viewer3D.Throws
  end.

(** The report's description and colour of layer 2, from
    [result.recommendations.material]. *)
Definition layer2 (material : string) : string * string :=
  let mat := JS.toLowerCase material in
  if JS.includes mat "self-healing" || JS.includes mat "graphene"
  then ("Smart Material Layer (Self-Healing Nanopolymer)",
        "Indigo - Active Repair System")
  else if JS.includes mat "living" || JS.includes mat "bio"
          || JS.includes mat "algae"
  then ("Bio-Active Layer (Living Vegetation/Algae Panels)",
        "Green - Air Purification Active")
  else if JS.includes mat "carbon" || JS.includes mat "titanium"
  then ("High-Performance Composite (Carbon Fiber/Titanium)",
        "Dark Metallic - Maximum Strength")
  else ("Structural Core (High-Strength Concrete/Steel)", "Gray").

(** [features.find(f => f.includes('Bio-Skin') || f.includes('Glass'))
    || 'Standard Glazing'] *)
Definition smartFacade (features : list string) : string :=
  JS.str_or
    (List.find (fun f => JS.includes f "Bio-Skin" || JS.includes f "Glass")
          features)
    "Standard Glazing".

End Dashboard.

(** ** Further vocabulary *)

(** A result object that carries only a material text, only hazard texts,
    only a geometry. *)
Definition withMaterial (s : string) : Params :=
  {| profile := None;
     recommendations := Some {| structure := None; material := Some s |};
     geometry_params := None |}.

Definition withHazards (zone risk : option string) : Params :=
  {| profile := Some {| seismic_zone := zone; flood_risk := risk;
                        max_wind_speed := None |};
     recommendations := None;
     geometry_params := None |}.

Definition withGeometry (g : GeometryParams) : Params :=
  {| profile := None; recommendations := None; geometry_params := Some g |}.

(** What one frame does to the group, and a run of frames. *)
Definition groupStep (params : Params) (g : Euler.t) (a : Frame) : Euler.t :=
  seismic params (f_isCutaway a) (f_mode a) (f_time a)
    (baseRotation (f_isCutaway a) (f_mode a) g).

Definition groupSteps (params : Params) (fs : list Frame) (g : Euler.t)
  : Euler.t :=
  fold_left (groupStep params) fs g.

(** Runs of frames by what is active in them. *)
Definition notQuaking (fs : list Frame) : Prop :=
  Forall (fun a => f_mode a <> Some quake) fs.

Definition idling (fs : list Frame) : Prop :=
  Forall (fun a => f_mode a = None /\ f_isCutaway a = false) fs.

(** Frames in which neither the idle spin nor the quake torsion runs:
    cutaway is on, or flood or fire is the active simulation. *)
Definition spinSuspended (fs : list Frame) : Prop :=
  Forall (fun a => f_isCutaway a = true
                   \/ f_mode a = Some flood \/ f_mode a = Some fire) fs.

(** Every mesh a floor group mounts, and every solid of the scene that is
    given the clipping planes. *)
Definition option_list {A : Type} (o : option A) : list A :=
  match o with
  | Some a => [a]
  | None => []
  end.

Definition cutawayMeshes (c : CutawayLayers) : list Mesh.t :=
  (ribs c ++ inner c :: option_list (damping c))%list.

Definition floorMeshes (fg : FloorGroup) : list Mesh.t :=
  (g_slab fg
   :: match g_cutaway fg with
      | Some c => cutawayMeshes c
      | None => []
      end
   ++ g_balconies fg
   ++ option_list (g_mechanical fg)
   ++ g_facade fg :: g_windowFrames fg
   ++ g_columns fg
   ++ option_list (g_outrigger fg))%list.

Definition sceneMeshes (s : Scene) : list Mesh.t :=
  (s_water s :: s_podium s :: s_pilings s
   ++ s_core s :: List.concat (map floorMeshes (s_floors s))
   ++ option_list (s_cutFace s))%list.

(** Does some character of the string satisfy the test? *)
Fixpoint anyChar (f : ascii -> bool) (s : string) : bool :=
  match s with
  | EmptyString => false
  | String c t => f c || anyChar f t
  end.

(** Squared distance of a column position from the vertical axis. *)
Definition dist2 (pos : R * R) : R := fst pos * fst pos + snd pos * snd pos.

(** The solids of the scene: everything but the water plane and the cut
    face. *)
Definition solidMeshes (s : Scene) : list Mesh.t :=
  (s_podium s :: s_pilings s
   ++ s_core s :: List.concat (map floorMeshes (s_floors s)))%list.

(** The planes a mesh is clipped by. *)
Definition clippedBy (m : Mesh.t) : list Plane :=
  Mat.clippingPlanes (Mesh.material m).

(** The encyclopedia articles the structure card can lead to. *)
Definition wikiArticles : list string :=
  ["Diagrid"; "Outrigger_(structure)"; "Buttressed_core"; "Tube_(structure)";
   "Structural_exoskeleton"; "Shear_wall"; "Moment-resisting_frame";
   "Bundled_tube"; "Megaframe"].

(** Is the character a space? *)
Definition isSpace (c : ascii) : bool := Ascii.eqb c " ".

(** Is something mounted? *)
Definition mountedOpt {A : Type} (o : option A) : bool :=
  match o with
  | Some _ => true
  | None => false
  end.

Definition mountedList {A : Type} (l : list A) : bool :=
  match l with
  | [] => false
  | _ :: _ => true
  end.

(** The callouts a floor group carries. *)
Definition floorLabels (fg : FloorGroup) : list Label :=
  match g_cutaway fg with
  | Some c => labels c
  | None => []
  end.

(** A run of frames in which quake is the active simulation. *)
Definition quaking (fs : list Frame) : Prop :=
  Forall (fun a => f_mode a = Some quake) fs.

(** Number of sides of a layer's outline: the radial segments of a
    cylinder geometry, 4 for a box, 0 when there is nothing to draw. *)
Definition sides (g : option Geometry) : nat :=
  match g with
  | Some (cylinderGeometry _ _ _ n) => n
  | Some (boxGeometry _ _ _) => 4
  | Some (planeGeometry _ _) => 4
  | None => 0
  end.







(** Does the text consist of ASCII characters (codes below 128) only?  On
    such a text [toLowerCase] and [toUpperCase] change the letters A-Z and
    a-z and nothing else. *)
Definition asciiText (s : string) : bool :=
  negb (anyChar (fun c => (128 <=? nat_of_ascii c)%nat) s).

(** A cylinder tower whose profile gives the wind speed [w]. *)
Definition windyCylinder (w : R) : Props :=
  {| params :=
       {| profile := Some {| seismic_zone := None; flood_risk := None;
                             max_wind_speed := Some w |};
          recommendations := None;
          geometry_params := geometry_params cylinderTower |};
     isCutaway := false;
     simulationMode := None |}.

(** A tower twisted by [d] degrees, all else left to the defaults. *)
Definition twistedBy (d : R) : Params :=
  withGeometry {| type := None; height := None; taper := None;
                  twist := Some d |}.

(** * Properties *)

(** ** Style resolver *)

Example materialRec_scenario :
  materialRec selfHealingGraphene = "self-healing graphene composite".
Proof. reflexivity. Qed.

Example topology_scenario :
  topology (structureRec selfHealingGraphene)
  = {| hasDiagrid := true; hasThickColumns := false; hasOutriggers := true |}.
Proof. reflexivity. Qed.

(** The scenario text does not resolve to the Smart Nano-Structure
    style. *)
Lemma C1_graphene_text_is_not_smart_nano :
  materialStyle (materialRec selfHealingGraphene) <> smartNanoStructure.
Proof.
  intro H. apply (f_equal name) in H. vm_compute in H. discriminate H.
Qed.

(** C1, on the code: the text "Self-Healing Graphene Composite" contains
    both the rule-2 keyword "graphene" and the rule-3 keyword "self-healing"
    and no rule-1 keyword; [materialStyle] tries the rules top-down and
    returns the second style, Advanced Composite Alloy, not Smart
    Nano-Structure.  The two sibling classifications of the same text put it
    in the indigo smart family: the viewer's inner-layer colour is the bright
    indigo "#818cf8" and the report describes layer 2 as the indigo smart
    material layer. *)
Theorem C1_graphene_text_is_composite_alloy :
  let mat := materialRec selfHealingGraphene in
  includes_any mat
    ["living"; "moss"; "forest"; "algae"; "bio"; "timber"; "bamboo"] = false
  /\ JS.includes mat "graphene" = true
  /\ JS.includes mat "self-healing" = true
  /\ materialStyle mat = advancedCompositeAlloy
  /\ materialStyle mat <> smartNanoStructure
  /\ materialRec (params scenarioProps) = mat
  /\ layerColor scenarioProps = "#818cf8"
  /\ Dashboard.layer2 "Self-Healing Graphene Composite"
     = ("Smart Material Layer (Self-Healing Nanopolymer)",
        "Indigo - Active Repair System").
Proof.
  repeat split; try reflexivity.
  intro H. apply (f_equal name) in H. vm_compute in H. discriminate H.
Qed.

(** ** Geometry generator *)

Lemma num_or_some (v d : R) : v <> 0 -> JS.num_or (Some v) d = v.
Proof.
  intro Hv. unfold JS.num_or. destruct (Req_dec_T v 0); [contradiction | reflexivity].
Qed.

Lemma INR_floorCount : INR floorCount = 30.
Proof. unfold floorCount. rewrite INR_IZR_INZ. reflexivity. Qed.

Lemma nth_error_seq_lt (s len i : nat) :
  (i < len)%nat -> nth_error (seq s len) i = Some (s + i)%nat.
Proof.
  revert s i. induction len as [|len IH]; intros s i Hi; [lia|].
  destruct i as [|i]; simpl.
  - f_equal. lia.
  - rewrite IH by lia. f_equal. lia.
Qed.

Lemma floors_length (params : Params) :
  List.length (floors params) = floorCount.
Proof. unfold floors. rewrite length_map, length_seq. reflexivity. Qed.

Lemma floors_nth (params : Params) (i : nat) :
  (i < floorCount)%nat ->
  nth_error (floors params) i
  = Some (floorAt (taperRatio params) (twistTotal params) i).
Proof.
  intro Hi. unfold floors.
  apply map_nth_error. apply (nth_error_seq_lt 0 floorCount i Hi).
Qed.

Lemma floors_nth_inv (params : Params) (i : nat) (fl : Floor.t) :
  nth_error (floors params) i = Some fl ->
  (i < floorCount)%nat
  /\ fl = floorAt (taperRatio params) (twistTotal params) i.
Proof.
  intro H.
  assert (Hi : (i < floorCount)%nat).
  { rewrite <- (floors_length params). apply nth_error_Some. congruence. }
  split; [exact Hi|]. rewrite (floors_nth params i Hi) in H. congruence.
Qed.






Lemma taperRatio_given (params : Params) (t : R) :
  taper (geoParams params) = Some t ->
  taperRatio params = if Req_dec_T t 0 then 1.0 else t.
Proof. intro Ht. unfold taperRatio. rewrite Ht. reflexivity. Qed.

Lemma floorAt_scale_antitone (r tw : R) (i j : nat) :
  r <= 1 -> (i <= j)%nat ->
  Floor.scale (floorAt r tw j) <= Floor.scale (floorAt r tw i).
Proof.
  intros Hr Hij. unfold floorAt; cbn [Floor.scale].
  rewrite INR_floorCount.
  apply le_INR in Hij.
  assert (H : (1.0 - r) * (INR i / 30) <= (1.0 - r) * (INR j / 30)).
  { apply Rmult_le_compat_l; lra. }
  lra.
Qed.

(** C9: floor 0 has scale 1 and rotation 0 whatever the parameters; when
    the given taper is below 1 the scale never grows with the floor index;
    when it is 1 the scale is 1 on every floor. *)
Theorem C9_scale_profile (params : Params) :
  (exists f0,
      nth_error (floors params) 0 = Some f0
      /\ Floor.scale f0 = 1 /\ Floor.rotation f0 = 0)
  /\ (forall (t : R) (i j : nat) (fi fj : Floor.t),
         taper (geoParams params) = Some t -> t < 1 ->
         (i <= j)%nat ->
         nth_error (floors params) i = Some fi ->
         nth_error (floors params) j = Some fj ->
         Floor.scale fj <= Floor.scale fi)
  /\ (forall (i : nat) (fi : Floor.t),
         taper (geoParams params) = Some 1 ->
         nth_error (floors params) i = Some fi ->
         Floor.scale fi = 1).
Proof.
  split; [|split].
  - exists (floorAt (taperRatio params) (twistTotal params) 0).
    split; [apply floors_nth; unfold floorCount; lia|].
    unfold floorAt; cbn [Floor.scale Floor.rotation].
    rewrite INR_floorCount. simpl INR. split; lra.
  - intros t i j fi fj Ht Hlt Hij Hi Hj.
    apply floors_nth_inv in Hi as [_ ->].
    apply floors_nth_inv in Hj as [_ ->].
    apply floorAt_scale_antitone; [|exact Hij].
    rewrite (taperRatio_given params t Ht).
    destruct (Req_dec_T t 0); lra.
  - intros i fi Ht Hi.
    apply floors_nth_inv in Hi as [_ ->].
    rewrite (taperRatio_given params 1 Ht).
    destruct (Req_dec_T 1 0); [lra|].
    unfold floorAt; cbn [Floor.scale]. lra.
Qed.

(** The witness of C9: floors 3 and 12 of the scenario tower (taper 0.6). *)
Lemma C9_scale_profile_witness :
  taper (geoParams cylinderTower) = Some 0.6 /\ 0.6 < 1 /\ (3 <= 12)%nat
  /\ nth_error (floors cylinderTower) 3
     = Some (floorAt (taperRatio cylinderTower) (twistTotal cylinderTower) 3)
  /\ nth_error (floors cylinderTower) 12
     = Some (floorAt (taperRatio cylinderTower) (twistTotal cylinderTower) 12)
  /\ Floor.scale (floorAt (taperRatio cylinderTower)
                          (twistTotal cylinderTower) 12)
     <= Floor.scale (floorAt (taperRatio cylinderTower)
                             (twistTotal cylinderTower) 3).
Proof.
  assert (H3 : nth_error (floors cylinderTower) 3
               = Some (floorAt (taperRatio cylinderTower)
                               (twistTotal cylinderTower) 3))
    by reflexivity.
  assert (H12 : nth_error (floors cylinderTower) 12
                = Some (floorAt (taperRatio cylinderTower)
                                (twistTotal cylinderTower) 12))
    by reflexivity.
  assert (Ht : taper (geoParams cylinderTower) = Some 0.6) by reflexivity.
  assert (Hlt : 0.6 < 1) by lra.
  assert (Hle : (3 <= 12)%nat) by lia.
  repeat split; try assumption.
  exact (proj1 (proj2 (C9_scale_profile cylinderTower))
           0.6 3%nat 12%nat _ _ Ht Hlt Hle H3 H12).
Defined.

(** ** Hazard simulation controller *)

Lemma floodRisk_tier (params : Params) :
  floodRisk params = 15 \/ floodRisk params = 5.
Proof.
  unfold floodRisk.
  destruct (JS.opt_includes (floodRiskText params) "High"); [left|right];
    reflexivity.
Qed.

Lemma runFrames_waterRef (params : Params) (fs : list Frame) (r : Refs) :
  waterRef (runFrames params fs r)
  = option_map (floodSteps params fs) (waterRef r).
Proof.
  revert r. induction fs as [|a fs IH]; intro r.
  - unfold runFrames; simpl fold_left. destruct (waterRef r); reflexivity.
  - change (runFrames params (a :: fs) r)
      with (runFrames params fs (runFrame params r a)).
    rewrite IH. unfold runFrame, useFrame; cbn [waterRef].
    destruct (waterRef r); reflexivity.
Qed.

Lemma floodStep_rise (params : Params) (m : option Sim) (w : Water.t) :
  m = Some flood ->
  Water.position_y (floodStep params m w)
  = MathUtils.lerp (Water.position_y w) (floodRisk params / 2) 0.02.
Proof. intros ->. reflexivity. Qed.

Lemma floodStep_recede (params : Params) (m : option Sim) (w : Water.t) :
  m <> Some flood ->
  Water.position_y (floodStep params m w)
  = MathUtils.lerp (Water.position_y w) (-5) 0.05.
Proof.
  intro Hm. unfold floodStep.
  destruct m as [[| |]|]; try reflexivity. contradiction Hm; reflexivity.
Qed.

(** While flooding, the height never falls and stays below the target. *)
Lemma floodSteps_rise (params : Params) (fs : list Frame) (w : Water.t) :
  flooding fs ->
  Water.position_y w < floodRisk params / 2 ->
  Water.position_y w <= Water.position_y (floodSteps params fs w)
  /\ Water.position_y (floodSteps params fs w) < floodRisk params / 2.
Proof.
  intro Hfs. revert w. induction Hfs as [|a fs Ha _ IH]; intros w Hw.
  - simpl. lra.
  - change (floodSteps params (a :: fs) w)
      with (floodSteps params fs (floodStep params (f_mode a) w)).
    pose proof (floodStep_rise params (f_mode a) w Ha) as Hstep.
    unfold MathUtils.lerp in Hstep.
    destruct (IH (floodStep params (f_mode a) w)) as [H1 H2]; lra.
Qed.

(** While not flooding, the height never rises and stays at or above the
    resting position. *)
Lemma floodSteps_recede (params : Params) (fs : list Frame) (w : Water.t) :
  notFlooding fs ->
  -5 <= Water.position_y w ->
  -5 <= Water.position_y (floodSteps params fs w)
  /\ Water.position_y (floodSteps params fs w) <= Water.position_y w.
Proof.
  intro Hfs. revert w. induction Hfs as [|a fs Ha _ IH]; intros w Hw.
  - simpl. lra.
  - change (floodSteps params (a :: fs) w)
      with (floodSteps params fs (floodStep params (f_mode a) w)).
    pose proof (floodStep_recede params (f_mode a) w Ha) as Hstep.
    unfold MathUtils.lerp in Hstep.
    destruct (IH (floodStep params (f_mode a) w)) as [H1 H2]; lra.
Qed.

(** C4: from the mounted resting state (height -5), after any run of
    flood frames the height [h] lies in [-5, target/2); one more flood frame
    moves it to [lerp h (target/2) 0.02], strictly higher and still strictly
    below [target/2], where [target] is 15 when the flood-risk text of the
    profile contains "High" and 5 otherwise (also without a text).  After
    any further run of non-flood frames the height [k] lies in [-5, h]; one
    more non-flood frame moves it to [lerp k (-5) 0.05], never higher and
    never below -5, and strictly lower as long as [k] is above -5.  A rise
    frame closes 2 percent of the remaining gap, a recede frame 5 percent. *)
Theorem C4_flood_rise_and_recede
  (params : Params) (rise recede : list Frame) (f g : Frame) :
  flooding rise -> f_mode f = Some flood ->
  notFlooding recede -> f_mode g <> Some flood ->
  let target := floodRisk params in
  let r1 := runFrames params rise mounted in
  let r2 := runFrames params recede r1 in
  exists h h' k k' : R,
    waterY r1 = Some h
    /\ waterY (runFrame params r1 f) = Some h'
    /\ waterY r2 = Some k
    /\ waterY (runFrame params r2 g) = Some k'
    /\ target
       = (if JS.opt_includes
               (match profile params with
                | Some pr => flood_risk pr
                | None => None
                end) "High"
          then 15 else 5)
    /\ h' = MathUtils.lerp h (target / 2) 0.02
    /\ -5 <= h /\ h < h' /\ h' < target / 2
    /\ target / 2 - h' = (1 - 0.02) * (target / 2 - h)
    /\ k' = MathUtils.lerp k (-5) 0.05
    /\ -5 <= k' /\ k' <= k /\ k <= h
    /\ (-5 < k -> k' < k)
    /\ k' - (-5) = (1 - 0.05) * (k - (-5))
    /\ 0.02 < 0.05.
Proof.
  intros Hrise Hf Hrec Hg target r1 r2.
  set (w0 := {| Water.position_y := -5; Water.opacity := 0 |}).
  set (w1 := floodSteps params rise w0).
  set (w2 := floodSteps params recede w1).
  assert (Er1 : waterRef r1 = Some w1).
  { unfold r1. rewrite runFrames_waterRef. reflexivity. }
  assert (Er2 : waterRef r2 = Some w2).
  { unfold r2. rewrite runFrames_waterRef, Er1. reflexivity. }
  pose proof (floodRisk_tier params) as Htier.
  assert (H0 : Water.position_y w0 < floodRisk params / 2).
  { simpl. destruct Htier as [-> | ->]; lra. }
  destruct (floodSteps_rise params rise w0 Hrise H0) as [Hlo Hhi].
  fold w1 in Hlo, Hhi. simpl Water.position_y in Hlo at 1.
  assert (Hw1 : -5 <= Water.position_y w1) by lra.
  destruct (floodSteps_recede params recede w1 Hrec Hw1) as [Klo Khi].
  fold w2 in Klo, Khi.
  exists (Water.position_y w1),
         (Water.position_y (floodStep params (f_mode f) w1)),
         (Water.position_y w2),
         (Water.position_y (floodStep params (f_mode g) w2)).
  rewrite (floodStep_rise params (f_mode f) w1 Hf).
  rewrite (floodStep_recede params (f_mode g) w2 Hg).
  unfold waterY, runFrame, useFrame; cbn [waterRef].
  rewrite Er1, Er2; cbn [option_map].
  rewrite (floodStep_rise params (f_mode f) w1 Hf).
  rewrite (floodStep_recede params (f_mode g) w2 Hg).
  fold target in Hhi |- *.
  unfold MathUtils.lerp.
  repeat split; try reflexivity; lra.
Qed.

(** The witness of C4: a high flood-risk text (target 15, so the plane
    rises toward 7.5); two flood frames, a third one, then one idle frame and
    another. *)
Lemma C4_flood_rise_and_recede_witness :
  flooding [frameOf (Some flood) 0; frameOf (Some flood) 1]
  /\ f_mode (frameOf (Some flood) 2) = Some flood
  /\ notFlooding [frameOf None 3]
  /\ f_mode (frameOf None 4) <> Some flood
  /\ floodRisk (withHazards None (Some "High (storm surge)")) = 15
  /\ floodRisk (withHazards None (Some "Low")) = 5
  /\ exists h h' : R,
       waterY (runFrames (withHazards None (Some "High (storm surge)"))
                 [frameOf (Some flood) 0; frameOf (Some flood) 1] mounted)
       = Some h
       /\ waterY (runFrame (withHazards None (Some "High (storm surge)"))
                    (runFrames (withHazards None (Some "High (storm surge)"))
                       [frameOf (Some flood) 0; frameOf (Some flood) 1]
                       mounted)
                    (frameOf (Some flood) 2))
          = Some h'
       /\ h < h' /\ h' < 15 / 2.
Proof.
  assert (H1 : flooding [frameOf (Some flood) 0; frameOf (Some flood) 1])
    by (repeat constructor).
  assert (H2 : f_mode (frameOf (Some flood) 2) = Some flood) by reflexivity.
  assert (H3 : notFlooding [frameOf None 3])
    by (repeat constructor; discriminate).
  assert (H4 : f_mode (frameOf None 4) <> Some flood) by discriminate.
  repeat (split; [assumption|]).
  destruct (C4_flood_rise_and_recede
              (withHazards None (Some "High (storm surge)")) _ _ _ _
              H1 H2 H3 H4)
    as (h & h' & k & k' & E1 & E2 & _ & _ & Ht & _ & _ & Hlt & Hhi & _).
  split; [exact Ht|]. split; [reflexivity|].
  exists h, h'. repeat split; assumption.
Defined.

(** Selecting the active simulation returns to idle; selecting another
    one switches to it directly. *)
Lemma toggleSim_twice (s : Sim) :
  toggleSim (toggleSim None s) s = None.
Proof. destruct s; reflexivity. Qed.

(** C5: on a frame whose simulation mode is not quake, with the model
    mounted, roll ([rotation.z]) and pitch ([rotation.x]) each become
    [lerp current 0 0.1], that is nine tenths of their value: they decay and a
    non-zero angle is never set to zero in one frame.  The previous frame
    plays no part, so this covers the frame right after a quake frame. *)
Theorem C5_upright_decay
  (params : Params) (cut : bool) (mode : option Sim) (time : R)
  (r : Refs) (g : Euler.t) :
  mode <> Some quake ->
  groupRef r = Some g ->
  exists g' : Euler.t,
    groupRef (useFrame params cut mode time r) = Some g'
    /\ Euler.z g' = MathUtils.lerp (Euler.z g) 0 0.1
    /\ Euler.x g' = MathUtils.lerp (Euler.x g) 0 0.1
    /\ Euler.z g' = 0.9 * Euler.z g
    /\ Euler.x g' = 0.9 * Euler.x g
    /\ (Euler.z g <> 0 -> Euler.z g' <> 0)
    /\ (Euler.x g <> 0 -> Euler.x g' <> 0).
Proof.
  intros Hmode Hg.
  assert (Hq : mode_is mode quake = false).
  { destruct mode as [[| |]|]; try reflexivity. contradiction Hmode; reflexivity. }
  exists (seismic params cut mode time (baseRotation cut mode g)).
  split.
  { unfold useFrame; cbn [groupRef]. rewrite Hg. reflexivity. }
  assert (Hx : Euler.x (baseRotation cut mode g) = Euler.x g).
  { unfold baseRotation. destruct mode; [reflexivity|].
    destruct (negb cut); reflexivity. }
  assert (Hz : Euler.z (baseRotation cut mode g) = Euler.z g).
  { unfold baseRotation. destruct mode; [reflexivity|].
    destruct (negb cut); reflexivity. }
  unfold seismic. rewrite Hq. cbn [Euler.x Euler.z]. rewrite Hx, Hz.
  unfold MathUtils.lerp.
  repeat split; try lra; intros Hnz Heq; apply Hnz; lra.
Qed.

(** The witness of C5: a quake frame on the mounted model followed
    directly by a flood frame. *)
Lemma C5_upright_decay_witness :
  Some flood <> Some quake
  /\ groupRef (useFrame emptyParams false (Some quake) 1 mounted)
     = Some (seismic emptyParams false (Some quake) 1
               (baseRotation false (Some quake)
                  {| Euler.x := 0; Euler.y := 0; Euler.z := 0 |}))
  /\ exists g' : Euler.t,
       groupRef (useFrame emptyParams false (Some flood) 2
                   (useFrame emptyParams false (Some quake) 1 mounted))
       = Some g'
       /\ Euler.z g' = 0.9 * (sin (1 * 5) * seismicPGA emptyParams * 2)
       /\ Euler.x g' = 0.9 * (cos (1 * 4) * seismicPGA emptyParams * 2).
Proof.
  assert (H1 : Some flood <> Some quake) by discriminate.
  assert (H2 : groupRef (useFrame emptyParams false (Some quake) 1 mounted)
               = Some (seismic emptyParams false (Some quake) 1
                         (baseRotation false (Some quake)
                            {| Euler.x := 0; Euler.y := 0; Euler.z := 0 |})))
    by reflexivity.
  split; [exact H1|]. split; [exact H2|].
  destruct (C5_upright_decay emptyParams false (Some flood) 2 _ _ H1 H2)
    as (g' & E & _ & _ & Hz & Hx & _).
  exists g'. split; [exact E|]. split; [exact Hz | exact Hx].
Defined.

(** ** Snapshot capability *)

Lemma querySelectorCanvas_none (doc : Viewer3D.Document) :
  existsb isCanvas doc = false -> Viewer3D.querySelectorCanvas doc = None.
Proof.
  induction doc as [|e doc IH]; [reflexivity|].
  destruct e as [f|tag]; simpl; [discriminate | exact IH].
Qed.

Lemma querySelectorCanvas_first
  (before after : Viewer3D.Document) (f : string -> string) :
  existsb isCanvas before = false ->
  Viewer3D.querySelectorCanvas (before ++ Viewer3D.canvas f :: after)%list
  = Some f.
Proof.
  induction before as [|e before IH]; [reflexivity|].
  destruct e as [f'|tag]; simpl; [discriminate | exact IH].
Qed.

(** C8: on a document without a canvas [captureSnapshot] returns [null];
    it throws on no document whatsoever; when the document has a canvas it
    returns what the first canvas encodes for "image/png". *)
Theorem C8_captureSnapshot :
  (forall doc : Viewer3D.Document,
      existsb isCanvas doc = false ->
      Viewer3D.captureSnapshot doc = Viewer3D.Returns None)
  /\ (forall doc : Viewer3D.Document,
         Viewer3D.captureSnapshot doc <> Viewer3D.Throws)
  /\ (forall (before after : Viewer3D.Document) (toDataURL : string -> string),
         existsb isCanvas before = false ->
         Viewer3D.captureSnapshot
           (before ++ Viewer3D.canvas toDataURL :: after)%list
         = Viewer3D.Returns (Some (toDataURL "image/png"))).
Proof.
  split; [|split].
  - intros doc Hdoc. unfold Viewer3D.captureSnapshot.
    rewrite (querySelectorCanvas_none doc Hdoc). reflexivity.
  - intro doc. unfold Viewer3D.captureSnapshot.
    destruct (Viewer3D.querySelectorCanvas doc); simpl; discriminate.
  - intros before after f Hb. unfold Viewer3D.captureSnapshot.
    rewrite (querySelectorCanvas_first before after f Hb). reflexivity.
Qed.

(** The witness of C8: a page with only a [div], and the same page once
    the viewer has mounted its canvas. *)
Lemma C8_captureSnapshot_witness :
  existsb isCanvas [Viewer3D.element "div"] = false
  /\ Viewer3D.captureSnapshot [Viewer3D.element "div"] = Viewer3D.Returns None
  /\ Viewer3D.captureSnapshot
       ([Viewer3D.element "div"]
        ++ Viewer3D.canvas (fun fmt => ("data:" ++ fmt ++ ";base64,")%string)
        :: [Viewer3D.element "button"])%list
     = Viewer3D.Returns (Some "data:image/png;base64,").
Proof.
  assert (H : existsb isCanvas [Viewer3D.element "div"] = false)
    by reflexivity.
  split; [exact H|]. split.
  - exact (proj1 C8_captureSnapshot _ H).
  - exact (proj2 (proj2 C8_captureSnapshot) _ _ _ H).
Defined.

(** ** Render rules *)

Lemma mapi_gen_nth {A B : Type} (f : nat -> A -> B) (l : list A) (s i : nat) :
  nth_error
    (map (fun ip => f (fst ip) (snd ip)) (combine (seq s (List.length l)) l)) i
  = option_map (f (s + i)%nat) (nth_error l i).
Proof.
  revert s i. induction l as [|a l IH]; intros s i.
  - destruct i; reflexivity.
  - destruct i as [|i]; simpl.
    + rewrite Nat.add_0_r. reflexivity.
    + rewrite IH. replace (S s + i)%nat with (s + S i)%nat by lia. reflexivity.
Qed.

Lemma mapi_nth {A B : Type} (f : nat -> A -> B) (l : list A) (i : nat) :
  nth_error (mapi f l) i = option_map (f i) (nth_error l i).
Proof. unfold mapi. apply (mapi_gen_nth f l 0 i). Qed.

Lemma mapi_length {A B : Type} (f : nat -> A -> B) (l : list A) :
  List.length (mapi f l) = List.length l.
Proof.
  unfold mapi. rewrite length_map, length_combine, length_seq. lia.
Qed.

Lemma mapi_in {A B : Type} (f : nat -> A -> B) (l : list A) (y : B) :
  In y (mapi f l) -> exists i x, nth_error l i = Some x /\ y = f i x.
Proof.
  intro Hy. apply In_nth_error in Hy as [i Hi].
  rewrite mapi_nth in Hi.
  destruct (nth_error l i) as [x|] eqn:Hx; [|discriminate].
  exists i, x. split; [exact Hx|]. simpl in Hi. congruence.
Qed.

Lemma map_mapi {A B C : Type} (g : B -> C) (f : nat -> A -> B) (l : list A) :
  map g (mapi f l) = mapi (fun i x => g (f i x)) l.
Proof. unfold mapi. rewrite map_map. reflexivity. Qed.


Lemma mapi_ext {A B : Type} (f g : nat -> A -> B) (l : list A) :
  (forall i x, nth_error l i = Some x -> f i x = g i x) ->
  mapi f l = mapi g l.
Proof.
  intro H. apply nth_error_ext. intro i. rewrite !mapi_nth.
  destruct (nth_error l i) as [x|] eqn:Hx; [|reflexivity].
  simpl. f_equal. apply H. exact Hx.
Qed.

Lemma scene_floor (p : Props) (i : nat) :
  (i < floorCount)%nat ->
  nth_error (s_floors (DetailedBuilding p)) i
  = Some (floorGroup p i
            (floorAt (taperRatio (params p)) (twistTotal (params p)) i)).
Proof.
  intro Hi. unfold DetailedBuilding; cbn [s_floors].
  rewrite mapi_nth, (floors_nth (params p) i Hi). reflexivity.
Qed.


Lemma profileGeometry_unsupported (ty : option string) (r rTri h side sc : R) :
  supportedArchetype ty = false ->
  profileGeometry ty r rTri h side sc = None.
Proof.
  intro H. unfold supportedArchetype in H. cbn [existsb] in H.
  repeat (apply orb_false_iff in H; destruct H as [? H]).
  unfold profileGeometry.
  repeat match goal with E : JS.strict_eq ty _ = false |- _ =>
    rewrite E; clear E end.
  reflexivity.
Qed.

Lemma unsupported_tests (ty : option string) :
  supportedArchetype ty = false ->
  JS.strict_eq ty "cylinder" = false /\ JS.strict_eq ty "hexagon" = false
  /\ JS.strict_eq ty "triangle" = false /\ JS.strict_eq ty "pyramid" = false
  /\ JS.strict_eq ty "prism" = false.
Proof.
  intro H. unfold supportedArchetype in H. cbn [existsb] in H.
  repeat (apply orb_false_iff in H; destruct H as [? H]).
  repeat split; assumption.
Qed.

Lemma colPositions_unsupported (p : Props) (fl : Floor.t) :
  supportedArchetype (type (geoParams (params p))) = false ->
  colPositions p fl = [ (4.5, 4.5); (-4.5, 4.5); (4.5, -4.5); (-4.5, -4.5) ].
Proof.
  intro H. apply unsupported_tests in H as (H1 & H2 & H3 & H4 & H5).
  unfold colPositions. rewrite H1, H2, H3, H4, H5. reflexivity.
Qed.

(** C2, on the code: when the archetype is unset or not one of the eight
    supported values, the slab, the facade, the inner material ring, the
    insulation ring and the mechanical block of every floor are mounted
    without any geometry (nothing is drawn for them), while the columns and
    the belt truss of the same floor do fall back to the box layout. *)
Theorem C2_unsupported_archetype_layers_have_no_geometry (p : Props) :
  supportedArchetype (type (geoParams (params p))) = false ->
  Forall
    (fun fg =>
       drawn (g_slab fg) = false
       /\ drawn (g_facade fg) = false
       /\ match g_mechanical fg with
          | Some m => drawn m = false
          | None => True
          end
       /\ match g_cutaway fg with
          | Some c =>
              drawn (inner c) = false
              /\ match damping c with
                 | Some d => drawn d = false
                 | None => True
                 end
          | None => True
          end
       /\ map Mesh.position (g_columns fg)
          = [ (4.5, 1, 4.5); (-4.5, 1, 4.5); (4.5, 1, -4.5); (-4.5, 1, -4.5) ]
       /\ match g_outrigger fg with
          | Some b => Mesh.geometry b = Some (boxGeometry 10.2 0.8 10.2)
          | None => True
          end)
    (s_floors (DetailedBuilding p)).
Proof.
  intro H. apply Forall_forall. intros fg Hin.
  unfold DetailedBuilding in Hin; cbn [s_floors] in Hin.
  apply mapi_in in Hin as (i & fl & _ & ->).
  unfold floorGroup;
    cbn [g_slab g_facade g_mechanical g_cutaway g_columns g_outrigger].
  repeat split.
  - unfold drawn, slab, slabGeometry; cbn [Mesh.geometry].
    rewrite (profileGeometry_unsupported _ _ _ _ _ _ H). reflexivity.
  - unfold drawn, facade, facadeGeometry; cbn [Mesh.geometry].
    rewrite (profileGeometry_unsupported _ _ _ _ _ _ H). reflexivity.
  - destruct (isMechanicalFloor i); [|exact I].
    unfold drawn, mechanical, mechanicalGeometry; cbn [Mesh.geometry].
    rewrite (profileGeometry_unsupported _ _ _ _ _ _ H). reflexivity.
  - destruct (isCutaway p); [|exact I].
    unfold cutawayLayers; cbn [inner damping]. split.
    + unfold drawn, innerLayer, innerLayerGeometry; cbn [Mesh.geometry].
      rewrite (profileGeometry_unsupported _ _ _ _ _ _ H). reflexivity.
    + destruct (i mod 3 =? 0)%nat; [|exact I].
      unfold drawn, insulation, insulationGeometry; cbn [Mesh.geometry].
      rewrite (profileGeometry_unsupported _ _ _ _ _ _ H). reflexivity.
  - unfold columns. rewrite (colPositions_unsupported p fl H).
    destruct (hasDiagrid _); [reflexivity|].
    destruct (hasThickColumns _); reflexivity.
  - unfold outrigger.
    destruct (hasOutriggers _ && (i mod 10 =? 0)%nat); [|exact I].
    apply unsupported_tests in H as (H1 & H2 & H3 & H4 & H5).
    unfold beltTruss; cbn [Mesh.geometry]. rewrite H1, H2, H4, H5.
    reflexivity.
Qed.

(** The witness of C2: the result object the dashboard passes before any
    analysis has no archetype; floor 15 in cutaway mode has its slab,
    facade, mechanical block, inner ring and insulation ring mounted without
    geometry. *)
Lemma C2_unsupported_archetype_layers_have_no_geometry_witness :
  supportedArchetype (type (geoParams emptyParams)) = false
  /\ exists fg m c d,
       nth_error (s_floors (Viewer3D.building emptyParams true None)) 15
       = Some fg
       /\ g_mechanical fg = Some m
       /\ g_cutaway fg = Some c
       /\ damping c = Some d
       /\ drawn (g_slab fg) = false
       /\ drawn (g_facade fg) = false
       /\ drawn m = false
       /\ drawn (inner c) = false
       /\ drawn d = false
       /\ List.length (g_columns fg) = 4%nat.
Proof.
  assert (H : supportedArchetype (type (geoParams emptyParams)) = false)
    by reflexivity.
  split; [exact H|].
  set (p := {| params := emptyParams; isCutaway := true;
               simulationMode := None |}).
  assert (E : nth_error (s_floors (DetailedBuilding p)) 15
              = Some (floorGroup p 15
                        (floorAt (taperRatio emptyParams)
                                 (twistTotal emptyParams) 15)))
    by (apply scene_floor; unfold floorCount; lia).
  pose proof (C2_unsupported_archetype_layers_have_no_geometry p H) as HF.
  rewrite Forall_forall in HF.
  specialize (HF _ (nth_error_In _ _ E)).
  destruct HF as (Hslab & Hfac & Hmech & Hcut & Hcols & _).
  eexists. exists (mechanical p (floorAt (taperRatio emptyParams)
                                         (twistTotal emptyParams) 15)).
  exists (cutawayLayers p (floorAt (taperRatio emptyParams)
                                   (twistTotal emptyParams) 15) 15).
  exists (insulation p (floorAt (taperRatio emptyParams)
                                (twistTotal emptyParams) 15)).
  split; [exact E|].
  split; [reflexivity|]. split; [reflexivity|]. split; [reflexivity|].
  split; [exact Hslab|]. split; [exact Hfac|].
  split; [exact Hmech|].
  split; [exact (proj1 Hcut)|]. split; [exact (proj2 Hcut)|].
  rewrite <- (length_map Mesh.position), Hcols. reflexivity.
Defined.








(** The floor groups of two renders agree under a projection when the
    projection agrees floor by floor. *)
Lemma scene_floors_proj {A : Type} (f : FloorGroup -> A) (p q : Props) :
  floors (params p) = floors (params q) ->
  (forall i fl, f (floorGroup p i fl) = f (floorGroup q i fl)) ->
  map f (s_floors (DetailedBuilding p)) = map f (s_floors (DetailedBuilding q)).
Proof.
  intros Hfl H. unfold DetailedBuilding; cbn [s_floors].
  rewrite !map_mapi, Hfl. apply mapi_ext. intros i x _. apply H.
Qed.

Lemma scene_floors_all (P : FloorGroup -> Prop) (p : Props) :
  (forall i fl, P (floorGroup p i fl)) ->
  Forall P (s_floors (DetailedBuilding p)).
Proof.
  intro H. apply Forall_forall. intros fg Hin.
  unfold DetailedBuilding in Hin; cbn [s_floors] in Hin.
  apply mapi_in in Hin as (i & fl & _ & ->). apply H.
Qed.





(** C10: two parameter sets that differ only in [geometry_params.height]
    give the same 30 floor descriptors, the same floor groups, water plane,
    podium, pilings and core, and the same per-frame update; with cutaway off
    the whole scene is the same.  The height shows only in the cut face: its
    vertical position [height / 25] and its side [height / 5]. *)
Theorem C10_height_only_moves_cut_face
  (prof : option Profile) (recs : option Recommendations)
  (g : GeometryParams) (h1 h2 : option R) (cut : bool) (mode : option Sim) :
  let pa := {| profile := prof; recommendations := recs;
               geometry_params := Some (withHeight g h1) |} in
  let pb := {| profile := prof; recommendations := recs;
               geometry_params := Some (withHeight g h2) |} in
  let a := Viewer3D.building pa cut mode in
  let b := Viewer3D.building pb cut mode in
  floors pa = floors pb
  /\ List.length (floors pa) = 30%nat
  /\ s_floors a = s_floors b
  /\ s_water a = s_water b
  /\ s_groupPosition a = s_groupPosition b
  /\ s_podium a = s_podium b
  /\ s_pilings a = s_pilings b
  /\ s_core a = s_core b
  /\ (forall (time : R) (r : Refs),
         useFrame pa cut mode time r = useFrame pb cut mode time r)
  /\ Viewer3D.building pa false mode = Viewer3D.building pb false mode
  /\ option_map shape (s_cutFace a)
     = (if cut
        then Some ((-0.05, heightOf pa / 25, 0), (0, PI / 2, 0),
                   Some (planeGeometry (heightOf pa / 5) (heightOf pa / 5)))
        else None)
  /\ heightOf pa = JS.num_or h1 300.
Proof.
  intros pa pb a b.
  split; [reflexivity|].
  split; [apply floors_length|].
  do 6 (split; [reflexivity|]).
  split; [intros time r; reflexivity|].
  split; [reflexivity|].
  split; [destruct cut; reflexivity | reflexivity].
Qed.

(** * Further properties of the viewer and of the dashboard *)

(** ** Letter case in the recommendation and hazard texts *)

Lemma lower_upper_char (c : ascii) :
  JS.lower_char (JS.upper_char c) = JS.lower_char c.
Proof. destruct c as [[] [] [] [] [] [] [] []]; reflexivity. Qed.

Lemma lower_char_not_upper (c : ascii) : JS.is_upper (JS.lower_char c) = false.
Proof. destruct c as [[] [] [] [] [] [] [] []]; reflexivity. Qed.

Lemma toLowerCase_toUpperCase (s : string) :
  JS.toLowerCase (JS.toUpperCase s) = JS.toLowerCase s.
Proof.
  induction s as [|c s IH]; [reflexivity|].
  simpl. rewrite lower_upper_char, IH. reflexivity.
Qed.

Lemma str_or_empty (s : string) : JS.str_or (Some s) "" = s.
Proof. destruct s; reflexivity. Qed.

Lemma prefix_first_char (f : ascii -> bool) (c : ascii) (n h : string) :
  f c = true -> prefix (String c n) h = true -> anyChar f h = true.
Proof.
  intros Hc H. destruct h as [|a t]; [discriminate|].
  simpl in H. destruct (ascii_dec c a) as [<-|]; [|discriminate].
  simpl. rewrite Hc. reflexivity.
Qed.

Lemma includes_first_char (f : ascii -> bool) (c : ascii) (n h : string) :
  f c = true -> JS.includes h (String c n) = true -> anyChar f h = true.
Proof.
  intros Hc. induction h as [|a t IH]; intro H.
  - simpl in H. discriminate.
  - change (JS.includes (String a t) (String c n))
      with (prefix (String c n) (String a t) || JS.includes t (String c n))
      in H.
    apply orb_true_iff in H as [H|H].
    + exact (prefix_first_char f c n _ Hc H).
    + simpl. rewrite (IH H). apply orb_true_r.
Qed.

Lemma toLowerCase_no_upper (s : string) :
  anyChar JS.is_upper (JS.toLowerCase s) = false.
Proof.
  induction s as [|c s IH]; [reflexivity|].
  simpl. rewrite lower_char_not_upper, IH. reflexivity.
Qed.

Lemma lowered_excludes_High (s : string) :
  JS.includes (JS.toLowerCase s) "High" = false.
Proof.
  destruct (JS.includes (JS.toLowerCase s) "High") eqn:E; [|reflexivity].
  apply (includes_first_char JS.is_upper) in E; [|reflexivity].
  rewrite toLowerCase_no_upper in E. discriminate.
Qed.

(** The scene is a function of the two lower-cased recommendation texts,
    the geometry, the profile and the two flags. *)
Lemma DetailedBuilding_ext (p q : Props) :
  materialRec (params p) = materialRec (params q) ->
  structureRec (params p) = structureRec (params q) ->
  geometry_params (params p) = geometry_params (params q) ->
  profile (params p) = profile (params q) ->
  isCutaway p = isCutaway q ->
  simulationMode p = simulationMode q ->
  DetailedBuilding p = DetailedBuilding q.
Proof.
  intros Hm Hs Hg Hp Hc Hsim.
  unfold DetailedBuilding, waterPlane, podium, pilings, piling, core, cutFace,
    floorGroup, slab, cutawayLayers, rib, innerLayer, layerColor, insulation,
    xrayLabels, balcony, balconyRadius, mechanical, facade, windowFrames,
    windowFrame, segments, baseSegments, windSpeed, columns, colPositions,
    diagridNode, megaColumn, stdColumn, outrigger, beltTruss, floors,
    heightOf, taperRatio, twistTotal, floodRisk, floodRiskText, seismicPGA,
    seismicZone, geoParams.
  rewrite Hm, Hs, Hg, Hp, Hc, Hsim. reflexivity.
Qed.

(** X1: for material and structure texts made of ASCII characters, letter
    case plays no part: upper-casing both texts leaves the resolved style,
    the topology flags and the whole scene unchanged. *)
Theorem X1_scene_ignores_letter_case
  (prof : option Profile) (g : option GeometryParams) (m s : string)
  (cut : bool) (mode : option Sim) :
  asciiText m = true -> asciiText s = true ->
  let given :=
    {| profile := prof;
       recommendations := Some {| structure := Some s; material := Some m |};
       geometry_params := g |} in
  let shouted :=
    {| profile := prof;
       recommendations :=
         Some {| structure := Some (JS.toUpperCase s);
                 material := Some (JS.toUpperCase m) |};
       geometry_params := g |} in
  materialStyle (materialRec shouted) = materialStyle (materialRec given)
  /\ topology (structureRec shouted) = topology (structureRec given)
  /\ Viewer3D.building shouted cut mode = Viewer3D.building given cut mode.
Proof.
  intros _ _ given shouted.
  assert (Hm : materialRec shouted = materialRec given).
  { unfold materialRec, shouted, given; cbn [recommendations material option_map].
    rewrite !str_or_empty. apply toLowerCase_toUpperCase. }
  assert (Hs : structureRec shouted = structureRec given).
  { unfold structureRec, shouted, given;
      cbn [recommendations structure option_map].
    rewrite !str_or_empty. apply toLowerCase_toUpperCase. }
  split; [rewrite Hm; reflexivity|].
  split; [rewrite Hs; reflexivity|].
  apply DetailedBuilding_ext; cbn [params isCutaway simulationMode];
    try reflexivity; assumption.
Qed.

Lemma X1_scene_ignores_letter_case_witness :
  asciiText "Self-Healing Graphene Composite" = true
  /\ asciiText "Diagrid Exoskeleton with Outrigger Belts" = true
  /\ JS.toUpperCase "Self-Healing Graphene Composite"
     = "SELF-HEALING GRAPHENE COMPOSITE"
  /\ materialStyle
       (materialRec
          {| profile := None;
             recommendations :=
               Some {| structure :=
                         Some (JS.toUpperCase
                                 "Diagrid Exoskeleton with Outrigger Belts");
                       material :=
                         Some (JS.toUpperCase
                                 "Self-Healing Graphene Composite") |};
             geometry_params := None |})
     = materialStyle (materialRec selfHealingGraphene).
Proof.
  assert (H1 : asciiText "Self-Healing Graphene Composite" = true)
    by reflexivity.
  assert (H2 : asciiText "Diagrid Exoskeleton with Outrigger Belts" = true)
    by reflexivity.
  split; [exact H1|]. split; [exact H2|]. split; [reflexivity|].
  exact (proj1 (X1_scene_ignores_letter_case None None _ _ false None H1 H2)).
Defined.

(** X2: the hazard tiers test for "High" with a capital H: a zone or risk
    text without capitals, and a missing one, always gives the low tier
    (sway scale 0.02, water target 5). *)
Theorem X2_lower_case_hazard_text_is_low_tier (zone risk : string) :
  seismicPGA (withHazards (Some (JS.toLowerCase zone)) (Some risk)) = 0.02
  /\ floodRisk (withHazards (Some zone) (Some (JS.toLowerCase risk))) = 5
  /\ seismicPGA (withHazards None (Some risk)) = 0.02
  /\ floodRisk (withHazards (Some zone) None) = 5.
Proof.
  unfold seismicPGA, floodRisk, seismicZone, floodRiskText, withHazards;
    cbn [profile seismic_zone flood_risk JS.opt_includes].
  rewrite !lowered_excludes_High. repeat split; reflexivity.
Qed.

(** ** Floor generator: bounds and spacing *)

Lemma INR_lt_floorCount (i : nat) : (i < floorCount)%nat -> 0 <= INR i < 30.
Proof.
  intro Hi. split; [apply pos_INR|].
  rewrite <- INR_floorCount. apply lt_INR. exact Hi.
Qed.

(** X3: for a given taper [t] in (0, 1], every floor's scale lies in
    (t, 1] (at most 1, strictly above [t]), so no floor collapses to a point or
    is mirrored. *)
Theorem X3_scale_within_taper_and_one
  (params : Params) (t : R) (i : nat) (fl : Floor.t) :
  taper (geoParams params) = Some t -> 0 < t <= 1 ->
  nth_error (floors params) i = Some fl ->
  t <= Floor.scale fl <= 1
  /\ 0 < Floor.scale fl
  /\ (t < 1 -> t < Floor.scale fl).
Proof.
  intros Ht Hrange Hfl.
  apply floors_nth_inv in Hfl as [Hi ->].
  apply INR_lt_floorCount in Hi.
  rewrite (taperRatio_given params t Ht).
  destruct (Req_dec_T t 0) as [E|_]; [lra|].
  unfold floorAt; cbn [Floor.scale]. rewrite INR_floorCount.
  assert (H1 : 0 <= (1.0 - t) * (INR i / 30)).
  { apply Rmult_le_pos; lra. }
  assert (H2 : (1.0 - t) * (INR i / 30) <= (1.0 - t) * 1).
  { apply Rmult_le_compat_l; lra. }
  repeat split; try lra.
  intro Hlt.
  assert (H3 : (1.0 - t) * (INR i / 30) < (1.0 - t) * 1).
  { apply Rmult_lt_compat_l; lra. }
  lra.
Qed.

Lemma X3_scale_within_taper_and_one_witness :
  taper (geoParams cylinderTower) = Some 0.6 /\ 0 < 0.6 <= 1
  /\ nth_error (floors cylinderTower) 29
     = Some (floorAt (taperRatio cylinderTower) (twistTotal cylinderTower) 29)
  /\ 0.6 <= Floor.scale (floorAt (taperRatio cylinderTower)
                                 (twistTotal cylinderTower) 29) <= 1.
Proof.
  assert (H1 : taper (geoParams cylinderTower) = Some 0.6) by reflexivity.
  assert (H2 : 0 < 0.6 <= 1) by lra.
  assert (H3 : nth_error (floors cylinderTower) 29
               = Some (floorAt (taperRatio cylinderTower)
                               (twistTotal cylinderTower) 29))
    by reflexivity.
  repeat (split; [assumption|]).
  exact (proj1 (X3_scale_within_taper_and_one cylinderTower 0.6 29%nat _
                  H1 H2 H3)).
Defined.

(** X4: the twist is spread evenly, whatever its sign: the rotations of two
    floors differ by one thirtieth of the total twist [d * PI / 180] per
    floor between them.  For a twist of [d >= 0] degrees the rotation never
    decreases with the floor index and stays between 0 and the total, which
    no floor reaches when [d > 0]. *)
Theorem X4_rotation_linear_and_bounded
  (params : Params) (d : R) (i j : nat) (fi fj : Floor.t) :
  twist (geoParams params) = Some d ->
  nth_error (floors params) i = Some fi ->
  nth_error (floors params) j = Some fj ->
  Floor.rotation fj - Floor.rotation fi
  = (d * (PI / 180)) / 30 * (INR j - INR i)
  /\ (0 <= d -> (i <= j)%nat -> Floor.rotation fi <= Floor.rotation fj)
  /\ (0 <= d -> 0 <= Floor.rotation fi)
  /\ (0 <= d -> Floor.rotation fj <= d * (PI / 180))
  /\ (0 < d -> Floor.rotation fj < d * (PI / 180)).
Proof.
  intros Hd Hfi Hfj.
  apply floors_nth_inv in Hfi as [Hi ->].
  apply floors_nth_inv in Hfj as [Hj ->].
  apply INR_lt_floorCount in Hi. apply INR_lt_floorCount in Hj.
  assert (Htw : twistTotal params = d * (PI / 180)).
  { unfold twistTotal. rewrite Hd. unfold JS.num_or.
    destruct (Req_dec_T d 0) as [->|_]; lra. }
  rewrite Htw. unfold floorAt; cbn [Floor.rotation]. rewrite INR_floorCount.
  pose proof PI_RGT_0 as Hpi.
  set (T := d * (PI / 180)).
  split; [field|].
  split.
  { intros Hpos Hij. apply le_INR in Hij.
    assert (HT : 0 <= T) by (unfold T; apply Rmult_le_pos; lra).
    apply Rmult_le_compat_l; lra. }
  split.
  { intro Hpos.
    assert (HT : 0 <= T) by (unfold T; apply Rmult_le_pos; lra).
    apply Rmult_le_pos; lra. }
  split.
  { intro Hpos.
    assert (HT : 0 <= T) by (unfold T; apply Rmult_le_pos; lra).
    assert (Hhi : T * (INR j / 30) <= T * 1).
    { apply Rmult_le_compat_l; lra. }
    lra. }
  intro Hd0.
  assert (HT0 : 0 < T) by (unfold T; apply Rmult_lt_0_compat; lra).
  assert (T * (INR j / 30) < T * 1) by (apply Rmult_lt_compat_l; lra).
  lra.
Qed.

(** The witness of X4: floors 3 and 12 of a tower twisted by -45 degrees
    (spacing) and of the scenario tower twisted by 90 degrees (order). *)
Lemma X4_rotation_linear_and_bounded_witness :
  twist (geoParams (twistedBy (-45))) = Some (-45)
  /\ Floor.rotation (floorAt (taperRatio (twistedBy (-45)))
                             (twistTotal (twistedBy (-45))) 12)
     - Floor.rotation (floorAt (taperRatio (twistedBy (-45)))
                               (twistTotal (twistedBy (-45))) 3)
     = (-45 * (PI / 180)) / 30 * (INR 12 - INR 3)
  /\ twist (geoParams cylinderTower) = Some 90 /\ 0 <= 90 /\ (3 <= 12)%nat
  /\ Floor.rotation (floorAt (taperRatio cylinderTower)
                             (twistTotal cylinderTower) 3)
     <= Floor.rotation (floorAt (taperRatio cylinderTower)
                                (twistTotal cylinderTower) 12).
Proof.
  assert (N1 : twist (geoParams (twistedBy (-45))) = Some (-45))
    by reflexivity.
  assert (N4 : nth_error (floors (twistedBy (-45))) 3
               = Some (floorAt (taperRatio (twistedBy (-45)))
                               (twistTotal (twistedBy (-45))) 3))
    by reflexivity.
  assert (N5 : nth_error (floors (twistedBy (-45))) 12
               = Some (floorAt (taperRatio (twistedBy (-45)))
                               (twistTotal (twistedBy (-45))) 12))
    by reflexivity.
  assert (H1 : twist (geoParams cylinderTower) = Some 90) by reflexivity.
  assert (H2 : 0 <= 90) by lra.
  assert (H3 : (3 <= 12)%nat) by lia.
  assert (H4 : nth_error (floors cylinderTower) 3
               = Some (floorAt (taperRatio cylinderTower)
                               (twistTotal cylinderTower) 3))
    by reflexivity.
  assert (H5 : nth_error (floors cylinderTower) 12
               = Some (floorAt (taperRatio cylinderTower)
                               (twistTotal cylinderTower) 12))
    by reflexivity.
  split; [exact N1|].
  split.
  { exact (proj1 (X4_rotation_linear_and_bounded (twistedBy (-45)) (-45)
                    3%nat 12%nat _ _ N1 N4 N5)). }
  repeat (split; [assumption|]).
  exact (proj1 (proj2 (X4_rotation_linear_and_bounded cylinderTower 90
                         3%nat 12%nat _ _ H1 H4 H5)) H2 H3).
Defined.

(** X5: floor [i] sits at height [3 * i]; consecutive floors are 3 apart
    and every floor lies inside the vertical extent of the central core, which
    is 90 tall and centred at 45 whatever the [height] parameter says. *)
Theorem X5_floors_stack_inside_core (p : Props) (i : nat) (fg : FloorGroup) :
  nth_error (s_floors (DetailedBuilding p)) i = Some fg ->
  g_position fg = (0, Floor.y (descriptor fg), 0)
  /\ Floor.y (descriptor fg) = 3 * INR i
  /\ Floor.id (descriptor fg) = i
  /\ shape (s_core (DetailedBuilding p))
     = ((0, INR floorCount * floorHeight * 2.5 / 2, 0), origin,
        Some (cylinderGeometry 1.5 1.5 (INR floorCount * floorHeight * 2.5) 8))
  /\ INR floorCount * floorHeight * 2.5 = 90
  /\ 0 <= Floor.y (descriptor fg) < 90.
Proof.
  intro Hfg.
  assert (Hi : (i < floorCount)%nat).
  { rewrite <- (floors_length (params p)).
    unfold DetailedBuilding in Hfg; cbn [s_floors] in Hfg.
    rewrite <- (mapi_length (floorGroup p)).
    apply nth_error_Some. congruence. }
  rewrite (scene_floor p i Hi) in Hfg. injection Hfg as <-.
  apply INR_lt_floorCount in Hi.
  unfold floorGroup, floorAt; cbn [g_position descriptor Floor.y Floor.id].
  split; [reflexivity|].
  split; [unfold floorHeight; lra|].
  split; [reflexivity|].
  split; [reflexivity|].
  unfold floorHeight. rewrite INR_floorCount. split; lra.
Qed.

Lemma X5_floors_stack_inside_core_witness :
  nth_error (s_floors (DetailedBuilding scenarioProps)) 29
  = Some (floorGroup scenarioProps 29
            (floorAt (taperRatio (params scenarioProps))
                     (twistTotal (params scenarioProps)) 29))
  /\ Floor.y (descriptor
                (floorGroup scenarioProps 29
                   (floorAt (taperRatio (params scenarioProps))
                            (twistTotal (params scenarioProps)) 29)))
     = 3 * INR 29.
Proof.
  assert (H : nth_error (s_floors (DetailedBuilding scenarioProps)) 29
              = Some (floorGroup scenarioProps 29
                        (floorAt (taperRatio (params scenarioProps))
                                 (twistTotal (params scenarioProps)) 29))).
  { apply scene_floor. unfold floorCount. lia. }
  split; [exact H|].
  exact (proj1 (proj2 (X5_floors_stack_inside_core scenarioProps 29 _ H))).
Defined.

(** ** Per-frame update: bounds, decay and what is suspended *)

Lemma runFrames_groupRef (params : Params) (fs : list Frame) (r : Refs) :
  groupRef (runFrames params fs r)
  = option_map (groupSteps params fs) (groupRef r).
Proof.
  revert r. induction fs as [|a fs IH]; intro r.
  - unfold runFrames; simpl fold_left. destruct (groupRef r); reflexivity.
  - change (runFrames params (a :: fs) r)
      with (runFrames params fs (runFrame params r a)).
    rewrite IH. unfold runFrame, useFrame; cbn [groupRef].
    destruct (groupRef r); reflexivity.
Qed.

Lemma seismicPGA_tier (params : Params) :
  seismicPGA params = 0.05 \/ seismicPGA params = 0.02.
Proof.
  unfold seismicPGA.
  destruct (JS.opt_includes (seismicZone params) "High"); [left|right];
    reflexivity.
Qed.

Lemma Rabs_scaled_le (u a : R) : -1 <= u <= 1 -> 0 <= a -> Rabs (u * a) <= a.
Proof.
  intros Hu Ha. apply Rabs_le.
  assert (- a <= u * a) by nra. assert (u * a <= a) by nra. lra.
Qed.

(** X6: on a quake frame roll and pitch are set within [2 * seismicPGA] of
    upright, which is at most 0.1 rad; the yaw moves by at most
    [seismicPGA / 2] and not at all under cutaway. *)
Theorem X6_quake_sway_is_bounded
  (params : Params) (cut : bool) (time : R) (r : Refs) (g : Euler.t) :
  groupRef r = Some g ->
  exists g' : Euler.t,
    groupRef (useFrame params cut (Some quake) time r) = Some g'
    /\ Rabs (Euler.z g') <= 2 * seismicPGA params
    /\ Rabs (Euler.x g') <= 2 * seismicPGA params
    /\ 2 * seismicPGA params <= 0.1
    /\ Rabs (Euler.y g' - Euler.y g) <= seismicPGA params / 2
    /\ (cut = true -> Euler.y g' = Euler.y g).
Proof.
  intro Hg.
  exists (seismic params cut (Some quake) time
            (baseRotation cut (Some quake) g)).
  split; [unfold useFrame; cbn [groupRef]; rewrite Hg; reflexivity|].
  unfold seismic, baseRotation;
    cbn [mode_is Sim_eqb Euler.x Euler.y Euler.z].
  pose proof (seismicPGA_tier params) as Htier.
  pose proof (SIN_bound (time * 5)) as Hs5.
  pose proof (COS_bound (time * 4)) as Hc4.
  pose proof (SIN_bound (time * 8)) as Hs8.
  assert (Hpos : 0 <= seismicPGA params) by (destruct Htier as [-> | ->]; lra).
  split.
  { replace (sin (time * 5) * seismicPGA params * 2)
      with (sin (time * 5) * (2 * seismicPGA params)) by ring.
    apply Rabs_scaled_le; lra. }
  split.
  { replace (cos (time * 4) * seismicPGA params * 2)
      with (cos (time * 4) * (2 * seismicPGA params)) by ring.
    apply Rabs_scaled_le; lra. }
  split; [destruct Htier as [-> | ->]; lra|].
  split.
  { destruct cut; cbn [negb].
    - replace (Euler.y g - Euler.y g) with 0 by ring. rewrite Rabs_R0. lra.
    - replace (Euler.y g + sin (time * 8) * (seismicPGA params / 2) - Euler.y g)
        with (sin (time * 8) * (seismicPGA params / 2)) by ring.
      apply Rabs_scaled_le; lra. }
  intros ->. reflexivity.
Qed.

Lemma X6_quake_sway_is_bounded_witness :
  groupRef mounted = Some {| Euler.x := 0; Euler.y := 0; Euler.z := 0 |}
  /\ exists g' : Euler.t,
       groupRef (useFrame emptyParams false (Some quake) 1 mounted) = Some g'
       /\ Rabs (Euler.z g') <= 2 * seismicPGA emptyParams.
Proof.
  assert (H : groupRef mounted
              = Some {| Euler.x := 0; Euler.y := 0; Euler.z := 0 |})
    by reflexivity.
  split; [exact H|].
  destruct (X6_quake_sway_is_bounded emptyParams false 1 mounted _ H)
    as (g' & E & Hz & _).
  exists g'. split; assumption.
Defined.

Lemma groupStep_not_quake (params : Params) (g : Euler.t) (a : Frame) :
  f_mode a <> Some quake ->
  Euler.z (groupStep params g a) = 0.9 * Euler.z g
  /\ Euler.x (groupStep params g a) = 0.9 * Euler.x g.
Proof.
  intro Hm. unfold groupStep, seismic, baseRotation.
  destruct (f_mode a) as [[| |]|]; try (contradiction Hm; reflexivity);
    cbn [mode_is Sim_eqb]; try destruct (negb (f_isCutaway a));
    cbn [Euler.x Euler.z]; unfold MathUtils.lerp; split; lra.
Qed.

(** X7: after [n] consecutive frames without quake, roll and pitch are
    [0.9 ^ n] times what they were: the model returns to upright
    geometrically and never swings past it. *)
Theorem X7_upright_decay_is_geometric
  (params : Params) (fs : list Frame) (r : Refs) (g : Euler.t) :
  notQuaking fs ->
  groupRef r = Some g ->
  exists g' : Euler.t,
    groupRef (runFrames params fs r) = Some g'
    /\ Euler.z g' = 0.9 ^ List.length fs * Euler.z g
    /\ Euler.x g' = 0.9 ^ List.length fs * Euler.x g
    /\ Rabs (Euler.z g') <= Rabs (Euler.z g)
    /\ Rabs (Euler.x g') <= Rabs (Euler.x g).
Proof.
  intros Hfs Hg.
  exists (groupSteps params fs g).
  split; [rewrite runFrames_groupRef, Hg; reflexivity|].
  assert (Hpow : Euler.z (groupSteps params fs g)
                 = 0.9 ^ List.length fs * Euler.z g
                 /\ Euler.x (groupSteps params fs g)
                    = 0.9 ^ List.length fs * Euler.x g).
  { clear Hg. revert g. induction Hfs as [|a fs Ha _ IH]; intro g.
    - simpl. split; lra.
    - change (groupSteps params (a :: fs) g)
        with (groupSteps params fs (groupStep params g a)).
      destruct (IH (groupStep params g a)) as [Hz Hx].
      destruct (groupStep_not_quake params g a Ha) as [Ez Ex].
      rewrite Hz, Hx, Ez, Ex. cbn [List.length pow]. split; ring. }
  destruct Hpow as [Hz Hx]. rewrite Hz, Hx.
  assert (H09 : 0 <= 0.9 ^ List.length fs <= 1).
  { split; [apply pow_le; lra|].
    rewrite <- (pow1 (List.length fs)). apply pow_incr. lra. }
  repeat split; try reflexivity;
    rewrite Rabs_mult, (Rabs_pos_eq _ (proj1 H09));
    pose proof (Rabs_pos (Euler.z g)); pose proof (Rabs_pos (Euler.x g)); nra.
Qed.

Lemma X7_upright_decay_is_geometric_witness :
  notQuaking [frameOf (Some flood) 2; frameOf None 3]
  /\ exists g' : Euler.t,
       groupRef (runFrames emptyParams [frameOf (Some flood) 2; frameOf None 3]
                   (useFrame emptyParams false (Some quake) 1 mounted))
       = Some g'
       /\ Euler.z g'
          = 0.9 ^ 2 * (sin (1 * 5) * seismicPGA emptyParams * 2).
Proof.
  assert (H1 : notQuaking [frameOf (Some flood) 2; frameOf None 3])
    by (repeat constructor; discriminate).
  assert (H2 : groupRef (useFrame emptyParams false (Some quake) 1 mounted)
               = Some (seismic emptyParams false (Some quake) 1
                         (baseRotation false (Some quake)
                            {| Euler.x := 0; Euler.y := 0; Euler.z := 0 |})))
    by reflexivity.
  split; [exact H1|].
  destruct (X7_upright_decay_is_geometric emptyParams _ _ _ H1 H2)
    as (g' & E & Hz & _).
  exists g'. split; [exact E | exact Hz].
Defined.

Lemma groupStep_idle_yaw (params : Params) (g : Euler.t) (a : Frame) :
  f_mode a = None /\ f_isCutaway a = false ->
  Euler.y (groupStep params g a) = Euler.y g + 0.002.
Proof.
  intros [Hm Hc]. unfold groupStep, seismic, baseRotation.
  rewrite Hm, Hc. reflexivity.
Qed.

Lemma groupStep_suspended_yaw (params : Params) (g : Euler.t) (a : Frame) :
  f_isCutaway a = true \/ f_mode a = Some flood \/ f_mode a = Some fire ->
  Euler.y (groupStep params g a) = Euler.y g.
Proof.
  intro H. unfold groupStep, seismic, baseRotation.
  destruct H as [Hc | [Hm | Hm]].
  - rewrite Hc. destruct (f_mode a) as [[| |]|]; reflexivity.
  - rewrite Hm. reflexivity.
  - rewrite Hm. reflexivity.
Qed.

(** X8: while the view idles with cutaway off, the model turns about its
    vertical axis by 0.002 rad per frame: after [n] such frames the yaw has
    advanced by [0.002 * n]. *)
Theorem X8_idle_spin_advances_per_frame
  (params : Params) (fs : list Frame) (r : Refs) (g : Euler.t) :
  idling fs ->
  groupRef r = Some g ->
  exists g' : Euler.t,
    groupRef (runFrames params fs r) = Some g'
    /\ Euler.y g' = Euler.y g + 0.002 * INR (List.length fs).
Proof.
  intros Hfs Hg.
  exists (groupSteps params fs g).
  split; [rewrite runFrames_groupRef, Hg; reflexivity|].
  clear Hg. revert g. induction Hfs as [|a fs Ha _ IH]; intro g.
  - simpl. lra.
  - change (groupSteps params (a :: fs) g)
      with (groupSteps params fs (groupStep params g a)).
    rewrite IH, (groupStep_idle_yaw params g a Ha).
    change (List.length (a :: fs)) with (S (List.length fs)).
    rewrite S_INR. lra.
Qed.

Lemma X8_idle_spin_advances_per_frame_witness :
  idling [frameOf None 0; frameOf None 1; frameOf None 2]
  /\ exists g' : Euler.t,
       groupRef (runFrames emptyParams
                   [frameOf None 0; frameOf None 1; frameOf None 2] mounted)
       = Some g'
       /\ Euler.y g' = 0 + 0.002 * INR 3.
Proof.
  assert (H1 : idling [frameOf None 0; frameOf None 1; frameOf None 2])
    by (repeat constructor).
  assert (H2 : groupRef mounted
               = Some {| Euler.x := 0; Euler.y := 0; Euler.z := 0 |})
    by reflexivity.
  split; [exact H1|].
  exact (X8_idle_spin_advances_per_frame emptyParams _ mounted _ H1 H2).
Defined.

(** X9: the yaw is frozen through any run of frames each of which has
    cutaway on or flood or fire active: neither the idle spin nor the quake
    torsion touches it, whatever the order of the frames. *)
Theorem X9_yaw_frozen_while_suspended
  (params : Params) (fs : list Frame) (r : Refs) (g : Euler.t) :
  spinSuspended fs ->
  groupRef r = Some g ->
  exists g' : Euler.t,
    groupRef (runFrames params fs r) = Some g'
    /\ Euler.y g' = Euler.y g.
Proof.
  intros Hfs Hg.
  exists (groupSteps params fs g).
  split; [rewrite runFrames_groupRef, Hg; reflexivity|].
  clear Hg. revert g. induction Hfs as [|a fs Ha _ IH]; intro g.
  - reflexivity.
  - change (groupSteps params (a :: fs) g)
      with (groupSteps params fs (groupStep params g a)).
    rewrite IH. apply groupStep_suspended_yaw. exact Ha.
Qed.

Lemma X9_yaw_frozen_while_suspended_witness :
  spinSuspended
    [ {| f_isCutaway := true; f_mode := Some quake; f_time := 1 |};
      frameOf (Some fire) 2;
      {| f_isCutaway := true; f_mode := None; f_time := 3 |} ]
  /\ exists g' : Euler.t,
       groupRef
         (runFrames emptyParams
            [ {| f_isCutaway := true; f_mode := Some quake; f_time := 1 |};
              frameOf (Some fire) 2;
              {| f_isCutaway := true; f_mode := None; f_time := 3 |} ]
            mounted)
       = Some g'
       /\ Euler.y g' = 0.
Proof.
  assert (H1 : spinSuspended
                 [ {| f_isCutaway := true; f_mode := Some quake;
                      f_time := 1 |};
                   frameOf (Some fire) 2;
                   {| f_isCutaway := true; f_mode := None; f_time := 3 |} ]).
  { constructor; [left; reflexivity|].
    constructor; [right; right; reflexivity|].
    constructor; [left; reflexivity | constructor]. }
  assert (H2 : groupRef mounted
               = Some {| Euler.x := 0; Euler.y := 0; Euler.z := 0 |})
    by reflexivity.
  split; [exact H1|].
  exact (X9_yaw_frozen_while_suspended emptyParams _ mounted _ H1 H2).
Defined.

Lemma floodStep_keeps_range (params : Params) (m : option Sim) (w : Water.t) :
  -5 <= Water.position_y w < floodRisk params / 2 ->
  0 <= Water.opacity w < 0.8 ->
  (-5 <= Water.position_y (floodStep params m w) < floodRisk params / 2)
  /\ (0 <= Water.opacity (floodStep params m w) < 0.8).
Proof.
  intros Hy Ho.
  pose proof (floodRisk_tier params) as Htier.
  unfold floodStep.
  destruct (mode_is m flood); cbn [Water.position_y Water.opacity];
    unfold MathUtils.lerp; destruct Htier as [E | E]; rewrite E in *;
    repeat split; lra.
Qed.

Lemma floodSteps_keep_range (params : Params) (fs : list Frame) (w : Water.t) :
  -5 <= Water.position_y w < floodRisk params / 2 ->
  0 <= Water.opacity w < 0.8 ->
  (-5 <= Water.position_y (floodSteps params fs w) < floodRisk params / 2)
  /\ (0 <= Water.opacity (floodSteps params fs w) < 0.8).
Proof.
  revert w. induction fs as [|a fs IH]; intros w Hy Ho.
  - simpl. split; assumption.
  - change (floodSteps params (a :: fs) w)
      with (floodSteps params fs (floodStep params (f_mode a) w)).
    destruct (floodStep_keeps_range params (f_mode a) w Hy Ho) as [Hy' Ho'].
    apply IH; assumption.
Qed.

(** X10: whatever the sequence of frames after mount (any order of
    simulation modes, any cutaway setting, any clock readings), the water
    plane stays between its resting height -5 and half the tier target,
    which it never reaches, and its opacity stays in [0, 0.8). *)
Theorem X10_water_stays_in_range (params : Params) (fs : list Frame) :
  exists w : Water.t,
    waterRef (runFrames params fs mounted) = Some w
    /\ -5 <= Water.position_y w < floodRisk params / 2
    /\ 0 <= Water.opacity w < 0.8.
Proof.
  exists (floodSteps params fs
            {| Water.position_y := -5; Water.opacity := 0 |}).
  split; [rewrite runFrames_waterRef; reflexivity|].
  apply floodSteps_keep_range; cbn [Water.position_y Water.opacity].
  - destruct (floodRisk_tier params) as [-> | ->]; lra.
  - lra.
Qed.

(** X11: after [n] consecutive flood frames from the resting state the
    water height is [T - (T + 5) * 0.98 ^ n] for [T] half the tier target and
    the opacity is [0.8 * (1 - 0.98 ^ n)]: the remaining gap shrinks by the
    factor 0.98 with every frame. *)
Theorem X11_flood_rise_closed_form (params : Params) (fs : list Frame) :
  flooding fs ->
  exists w : Water.t,
    waterRef (runFrames params fs mounted) = Some w
    /\ Water.position_y w
       = floodRisk params / 2
         - (floodRisk params / 2 + 5) * 0.98 ^ List.length fs
    /\ Water.opacity w = 0.8 * (1 - 0.98 ^ List.length fs).
Proof.
  intro Hfs.
  exists (floodSteps params fs
            {| Water.position_y := -5; Water.opacity := 0 |}).
  split; [rewrite runFrames_waterRef; reflexivity|].
  set (T := floodRisk params / 2).
  assert (Hgen : forall w,
    Water.position_y (floodSteps params fs w)
    = T - (T - Water.position_y w) * 0.98 ^ List.length fs
    /\ Water.opacity (floodSteps params fs w)
       = 0.8 - (0.8 - Water.opacity w) * 0.98 ^ List.length fs).
  { induction Hfs as [|a fs Ha _ IH]; intro w.
    - simpl. split; lra.
    - change (floodSteps params (a :: fs) w)
        with (floodSteps params fs (floodStep params (f_mode a) w)).
      destruct (IH (floodStep params (f_mode a) w)) as [Hy Ho].
      rewrite Hy, Ho. rewrite Ha.
      unfold floodStep; cbn [mode_is Sim_eqb Water.position_y Water.opacity].
      unfold MathUtils.lerp. fold T. cbn [List.length pow].
      generalize (0.98 ^ List.length fs). intro q.
      split; nra. }
  destruct (Hgen {| Water.position_y := -5; Water.opacity := 0 |})
    as [Hy Ho].
  rewrite Hy, Ho. cbn [Water.position_y Water.opacity].
  generalize (0.98 ^ List.length fs). intro q. split; nra.
Qed.

Lemma X11_flood_rise_closed_form_witness :
  flooding [frameOf (Some flood) 0; frameOf (Some flood) 1]
  /\ exists w : Water.t,
       waterRef (runFrames emptyParams
                   [frameOf (Some flood) 0; frameOf (Some flood) 1] mounted)
       = Some w
       /\ Water.position_y w
          = floodRisk emptyParams / 2
            - (floodRisk emptyParams / 2 + 5) * 0.98 ^ 2.
Proof.
  assert (H : flooding [frameOf (Some flood) 0; frameOf (Some flood) 1])
    by (repeat constructor).
  split; [exact H|].
  destruct (X11_flood_rise_closed_form emptyParams _ H) as (w & E & Hy & _).
  exists w. split; [exact E | exact Hy].
Defined.

(** ** Render rules: columns, window frames, pilings *)


Lemma strict_eq_true (ty : option string) (lit : string) :
  JS.strict_eq ty lit = true -> ty = Some lit.
Proof.
  destruct ty as [s|]; [|discriminate].
  simpl. intro H. apply String.eqb_eq in H. congruence.
Qed.



Lemma baseSegments_range (p : Props) :
  (3 <= baseSegments p <= 12)%nat.
Proof.
  unfold baseSegments.
  repeat match goal with
         | |- context [if ?b then _ else _] => destruct b
         end; lia.
Qed.

(** X13: the number of window frames on a floor is the archetype's base
    count (12, 6, 3 or 4), one and a half times it (rounded down) above wind
    speed 70 and twice it above 100; it never decreases when the wind speed
    grows and always lies between 3 and 24. *)
Theorem X13_window_frames_grow_with_wind (p q : Props) (fl : Floor.t) :
  type (geoParams (params p)) = type (geoParams (params q)) ->
  windSpeed p <= windSpeed q ->
  List.length (windowFrames p fl) = segments p
  /\ (segments p <= segments q)%nat
  /\ (3 <= segments p <= 24)%nat.
Proof.
  intros Hty Hw.
  assert (Hb : baseSegments q = baseSegments p).
  { unfold baseSegments. rewrite Hty. reflexivity. }
  pose proof (baseSegments_range p) as Hr.
  split.
  { unfold windowFrames. rewrite length_map, length_seq. reflexivity. }
  unfold segments, JS.gt. rewrite Hb.
  assert (Hdiv : (baseSegments p <= 3 * baseSegments p / 2)%nat).
  { apply Nat.div_le_lower_bound; lia. }
  assert (Hdiv2 : (3 * baseSegments p / 2 <= baseSegments p * 2)%nat).
  { apply Nat.Div0.div_le_upper_bound; lia. }
  destruct (Rlt_dec 100 (windSpeed p)), (Rlt_dec 100 (windSpeed q)),
    (Rlt_dec 70 (windSpeed p)), (Rlt_dec 70 (windSpeed q));
    try lra; split; lia.
Qed.

Lemma windyCylinder_speed (w : R) : w <> 0 -> windSpeed (windyCylinder w) = w.
Proof. intro Hw. unfold windSpeed. cbn. apply num_or_some. exact Hw. Qed.

(** The witness of X13: a cylinder tower at wind speeds 50, 80 and 120 has
    12, 18 and 24 window frames to a floor. *)
Lemma X13_window_frames_grow_with_wind_witness :
  type (geoParams (params (windyCylinder 50)))
  = type (geoParams (params (windyCylinder 120)))
  /\ windSpeed (windyCylinder 50) <= windSpeed (windyCylinder 120)
  /\ segments (windyCylinder 50) = 12%nat
  /\ segments (windyCylinder 80) = 18%nat
  /\ segments (windyCylinder 120) = 24%nat
  /\ List.length (windowFrames (windyCylinder 50) (floorAt 1 0 0))
     = segments (windyCylinder 50)
  /\ (segments (windyCylinder 50) <= segments (windyCylinder 120))%nat.
Proof.
  assert (H1 : type (geoParams (params (windyCylinder 50)))
               = type (geoParams (params (windyCylinder 120))))
    by reflexivity.
  assert (E50 : windSpeed (windyCylinder 50) = 50)
    by (apply windyCylinder_speed; lra).
  assert (E80 : windSpeed (windyCylinder 80) = 80)
    by (apply windyCylinder_speed; lra).
  assert (E120 : windSpeed (windyCylinder 120) = 120)
    by (apply windyCylinder_speed; lra).
  assert (H2 : windSpeed (windyCylinder 50) <= windSpeed (windyCylinder 120))
    by (rewrite E50, E120; lra).
  split; [exact H1|]. split; [exact H2|].
  split.
  { unfold segments, JS.gt. rewrite E50.
    destruct (Rlt_dec 100 50); [lra|]. destruct (Rlt_dec 70 50); [lra|].
    reflexivity. }
  split.
  { unfold segments, JS.gt. rewrite E80.
    destruct (Rlt_dec 100 80); [lra|]. destruct (Rlt_dec 70 80); [|lra].
    reflexivity. }
  split.
  { unfold segments, JS.gt. rewrite E120.
    destruct (Rlt_dec 100 120); [|lra]. reflexivity. }
  destruct (X13_window_frames_grow_with_wind (windyCylinder 50)
              (windyCylinder 120) (floorAt 1 0 0) H1 H2)
    as (Hlen & Hle & _).
  split; [exact Hlen | exact Hle].
Defined.

(** X14: the three structural pilings are mounted exactly when the flood
    risk text or the seismic zone text contains "High", and the podium is
    light-coloured exactly when the flood risk text does. *)
Theorem X14_pilings_follow_hazard_tiers (p : Props) :
  let floodHigh := JS.opt_includes (floodRiskText (params p)) "High" in
  let quakeHigh := JS.opt_includes (seismicZone (params p)) "High" in
  List.length (s_pilings (DetailedBuilding p))
  = (if floodHigh || quakeHigh then 3%nat else 0%nat)
  /\ Mat.color (Mesh.material (s_podium (DetailedBuilding p)))
     = (if floodHigh then "#cbd5e1" else "#475569").
Proof.
  intros floodHigh quakeHigh.
  unfold DetailedBuilding; cbn [s_pilings s_podium].
  unfold pilings, podium; cbn [Mesh.material Mat.color].
  unfold floodRisk, seismicPGA, JS.gt.
  fold floodHigh. fold quakeHigh.
  destruct floodHigh, quakeHigh;
    repeat match goal with
           | |- context [Rlt_dec ?a ?b] => destruct (Rlt_dec a b); try lra
           end;
    split; reflexivity.
Qed.

(** ** Render rules: what the simulation mode and the cutaway flag reach *)

Lemma floorMeshes_shapes_mode
  (data : Params) (cut : bool) (m1 m2 : option Sim) (i : nat) (fl : Floor.t) :
  map shape
    (floorMeshes
       (floorGroup {| params := data; isCutaway := cut; simulationMode := m1 |}
          i fl))
  = map shape
      (floorMeshes
         (floorGroup
            {| params := data; isCutaway := cut; simulationMode := m2 |}
            i fl)).
Proof.
  unfold floorMeshes, floorGroup;
    cbn [g_slab g_cutaway g_balconies g_mechanical g_facade g_windowFrames
         g_columns g_outrigger isCutaway].
  unfold cutawayMeshes, cutawayLayers, columns, outrigger, windowFrames;
    cbn [ribs inner damping params].
  destruct cut; cbn [negb andb];
    destruct (isBalconyFloor i), (isMechanicalFloor i),
      (i mod 2 =? 0)%nat, (i mod 3 =? 0)%nat,
      (hasDiagrid (topology (structureRec data))),
      (hasThickColumns (topology (structureRec data))),
      (hasOutriggers (topology (structureRec data)) && (i mod 10 =? 0)%nat);
    repeat (rewrite ?map_app, ?map_cons, ?map_map, ?map_mapi);
    reflexivity.
Qed.

(** X15: switching the simulation mode (idle, quake, flood, fire) changes
    no geometry: the floor descriptors and the position, rotation and
    geometry of every mesh of the scene are the same in all modes; only
    materials differ. *)
Theorem X15_simulation_mode_keeps_geometry
  (data : Params) (cut : bool) (m1 m2 : option Sim) :
  let a := Viewer3D.building data cut m1 in
  let b := Viewer3D.building data cut m2 in
  map descriptor (s_floors a) = map descriptor (s_floors b)
  /\ map shape (sceneMeshes a) = map shape (sceneMeshes b)
  /\ List.length (sceneMeshes a) = List.length (sceneMeshes b).
Proof.
  intros a b.
  assert (Hshapes : map shape (sceneMeshes a) = map shape (sceneMeshes b)).
  { unfold sceneMeshes.
    repeat (rewrite ?map_cons, ?map_app, ?concat_map, ?map_map).
    assert (Hfl : map (fun fg => map shape (floorMeshes fg)) (s_floors a)
                  = map (fun fg => map shape (floorMeshes fg)) (s_floors b)).
    { apply scene_floors_proj; [reflexivity|].
      intros i fl. apply floorMeshes_shapes_mode. }
    rewrite Hfl.
    unfold a, b, Viewer3D.building, DetailedBuilding;
      cbn [s_water s_podium s_pilings s_core s_cutFace].
    unfold pilings, cutFace; cbn [params isCutaway].
    destruct (JS.gt (floodRisk data) 10 || JS.gt (seismicPGA data) 0.04), cut;
      rewrite ?map_map; reflexivity. }
  split; [apply scene_floors_proj; reflexivity|].
  split; [exact Hshapes|].
  rewrite <- (length_map shape (sceneMeshes a)), Hshapes.
  apply length_map.
Qed.

Lemma Forall_map_const {A B : Type} (P : B -> Prop) (f : A -> B) (l : list A) :
  (forall a, P (f a)) -> Forall P (map f l).
Proof.
  intro H. apply Forall_forall. intros y Hy.
  apply in_map_iff in Hy as (a & <- & _). apply H.
Qed.

Lemma Forall_mapi_const {A B : Type} (P : B -> Prop) (f : nat -> A -> B)
  (l : list A) :
  (forall i a, P (f i a)) -> Forall P (mapi f l).
Proof.
  intro H. apply Forall_forall. intros y Hy.
  apply mapi_in in Hy as (i & a & _ & ->). apply H.
Qed.

Ltac forall_meshes :=
  repeat first
    [ apply Forall_nil
    | apply Forall_cons; [reflexivity|]
    | apply Forall_app; split
    | apply Forall_map_const; reflexivity
    | apply Forall_mapi_const; reflexivity
    | match goal with
      | |- context [if ?b then _ else _] => destruct b
      end ].

Lemma floorMeshes_clipped (p : Props) (i : nat) (fl : Floor.t) :
  Forall (fun m => clippedBy m = clipPlanes (isCutaway p))
    (floorMeshes (floorGroup p i fl)).
Proof.
  destruct p as [data cut mode].
  unfold floorMeshes, floorGroup;
    cbn [g_slab g_cutaway g_balconies g_mechanical g_facade g_windowFrames
         g_columns g_outrigger isCutaway].
  unfold cutawayMeshes, cutawayLayers, columns, outrigger, windowFrames,
    option_list; cbn [ribs inner damping].
  destruct cut; cbn [negb andb]; forall_meshes.
Qed.

(** X16: every solid of the scene (podium, pilings, core and every mesh
    of every floor) is clipped by exactly the planes of the current cutaway
    setting: the one half-space through the axis when cutaway is on, none
    when it is off.  In particular the balconies and window frames, which
    never carry clipping planes, are never mounted while cutaway is on. *)
Theorem X16_solids_share_the_clipping_planes
  (data : Params) (cut : bool) (mode : option Sim) :
  Forall (fun m => clippedBy m = clipPlanes cut)
    (solidMeshes (Viewer3D.building data cut mode))
  /\ Forall (fun fg => cut = true ->
                       g_balconies fg = [] /\ g_windowFrames fg = [])
       (s_floors (Viewer3D.building data cut mode))
  /\ clippedBy (s_water (Viewer3D.building data cut mode)) = []
  /\ List.length (clipPlanes cut) = (if cut then 1%nat else 0%nat).
Proof.
  set (p := {| params := data; isCutaway := cut; simulationMode := mode |}).
  change (Viewer3D.building data cut mode) with (DetailedBuilding p).
  split.
  { unfold solidMeshes.
    constructor; [reflexivity|].
    apply Forall_app; split.
    { unfold DetailedBuilding; cbn [s_pilings]. unfold pilings.
      destruct (JS.gt _ _ || JS.gt _ _); [|constructor].
      apply Forall_map_const. reflexivity. }
    constructor; [reflexivity|].
    apply Forall_concat. apply Forall_map.
    apply scene_floors_all. intros i fl.
    exact (floorMeshes_clipped p i fl). }
  split.
  { apply scene_floors_all. intros i fl Hcut.
    unfold floorGroup; cbn [g_balconies g_windowFrames isCutaway p].
    rewrite Hcut. split; reflexivity. }
  split; [reflexivity|].
  destruct cut; reflexivity.
Qed.

(** ** The dashboard: simulation buttons, links and report texts *)

(** X17: after a simulation button [s] is pressed, the active simulation
    is [s] or none; pressing the button of the active simulation switches it
    off, and pressing the same button twice leaves [s] active only if it was
    active before, so two presses never bring back a different simulation. *)
Theorem X17_simulation_buttons (active : option Sim) (s : Sim) :
  (toggleSim active s = None \/ toggleSim active s = Some s)
  /\ toggleSim (Some s) s = None
  /\ toggleSim None s = Some s
  /\ toggleSim (toggleSim active s) s
     = (if mode_is active s then Some s else None).
Proof.
  destruct active as [[| |]|], s; cbn; repeat split; auto.
Qed.

Lemma wikiQuery_article (struct query : string) :
  Dashboard.hasWiki struct = true ->
  In (Dashboard.wikiQuery struct query) wikiArticles.
Proof.
  unfold Dashboard.hasWiki, Dashboard.directWiki, Dashboard.wikiQuery.
  cbn [existsb]. intro H.
  repeat match goal with
         | |- context [if JS.includes struct ?t then _ else _] =>
             destruct (JS.includes struct t)
         end;
    try discriminate H; simpl; tauto.
Qed.

Lemma wikiQuery_raw (struct query : string) :
  Dashboard.hasWiki struct = false ->
  Dashboard.wikiQuery struct query = query.
Proof.
  unfold Dashboard.hasWiki, Dashboard.directWiki, Dashboard.wikiQuery.
  cbn [existsb]. intro H.
  repeat (apply orb_false_iff in H; destruct H as [? H]).
  repeat match goal with
         | E : JS.includes struct _ = false |- _ => rewrite E; clear E
         end.
  reflexivity.
Qed.

(** X18: the structure card opens an encyclopedia address exactly when the
    lower-cased structure text contains one of the nine listed terms, and the
    article is then one of the nine article names, never the raw text;
    otherwise it opens a web search for the structure text as given.  The
    handler fails when the result has no structure text. *)
Theorem X18_structure_card_link (result : Params) :
  match recommendations result with
  | Some {| structure := Some s |} =>
      exists query : string,
        Dashboard.structureClick result
        = Viewer3D.Returns
            (if Dashboard.hasWiki (JS.toLowerCase s)
             then "https://en.wikipedia.org/wiki/" ++ query
             else "https://duckduckgo.com/?q=" ++ query
                  ++ "+structural+system+architectural+definition&ia=web")
        /\ (if Dashboard.hasWiki (JS.toLowerCase s)
            then In query wikiArticles
            else query = s)
  | _ => Dashboard.structureClick result = Viewer3D.Throws
  end.
Proof.
  unfold Dashboard.structureClick.
  destruct (recommendations result) as [[[s|] mat]|]; try reflexivity.
  cbn [structure].
  exists (Dashboard.wikiQuery (JS.toLowerCase s) s).
  unfold Dashboard.structureUrl.
  destruct (Dashboard.hasWiki (JS.toLowerCase s)) eqn:E.
  - split; [reflexivity|]. apply wikiQuery_article. exact E.
  - split; [reflexivity|]. apply wikiQuery_raw. exact E.
Qed.

Lemma anyChar_append (f : ascii -> bool) (a b : string) :
  anyChar f (a ++ b) = anyChar f a || anyChar f b.
Proof.
  induction a as [|c a IH]; [reflexivity|].
  simpl. rewrite IH. apply orb_assoc.
Qed.

Lemma replaceSpaces_no_space (c : ascii) (s : string) :
  isSpace c = false ->
  anyChar isSpace (Dashboard.replaceSpaces c s) = false.
Proof.
  intro Hc. induction s as [|a s IH]; [reflexivity|].
  simpl. rewrite IH. unfold isSpace at 1.
  destruct (Ascii.eqb a " ") eqn:E.
  - fold (isSpace c). rewrite Hc. reflexivity.
  - rewrite E. reflexivity.
Qed.

Lemma replaceSpaces_length (c : ascii) (s : string) :
  String.length (Dashboard.replaceSpaces c s) = String.length s.
Proof.
  induction s as [|a s IH]; [reflexivity|]. simpl. rewrite IH. reflexivity.
Qed.

Lemma string_length_append (a b : string) :
  String.length (a ++ b) = (String.length a + String.length b)%nat.
Proof.
  induction a as [|c a IH]; [reflexivity|]. simpl. rewrite IH. reflexivity.
Qed.

Lemma replaceSpaces_fixed (c : ascii) (s : string) :
  anyChar isSpace s = false -> Dashboard.replaceSpaces c s = s.
Proof.
  induction s as [|a s IH]; [reflexivity|].
  simpl. intro H. apply orb_false_iff in H as [Ha Hs].
  unfold isSpace in Ha. rewrite Ha, (IH Hs). reflexivity.
Qed.

(** X19: neither the name the report is saved under nor the address of the
    material search contains a space, whatever the location name and the
    material text; the replacement keeps the length of the text and leaves a
    text without spaces as it is. *)
Theorem X19_no_space_in_file_name_and_search (name material : string) :
  anyChar isSpace (Dashboard.reportFileName name) = false
  /\ anyChar isSpace (Dashboard.materialSearchUrl material) = false
  /\ String.length (Dashboard.reportFileName name)
     = (String.length name + 22)%nat
  /\ (anyChar isSpace name = false ->
      Dashboard.reportFileName name = name ++ "_StrataMind_Report.pdf").
Proof.
  unfold Dashboard.reportFileName, Dashboard.materialSearchUrl.
  split; [|split; [|split]].
  - rewrite anyChar_append, replaceSpaces_no_space by reflexivity. reflexivity.
  - rewrite !anyChar_append, replaceSpaces_no_space by reflexivity.
    reflexivity.
  - rewrite string_length_append, replaceSpaces_length. reflexivity.
  - intro H. rewrite (replaceSpaces_fixed _ _ H). reflexivity.
Qed.

Lemma X19_no_space_in_file_name_and_search_witness :
  anyChar isSpace "Tokyo" = false
  /\ Dashboard.reportFileName "Tokyo" = "Tokyo_StrataMind_Report.pdf"
  /\ Dashboard.reportFileName "New York City"
     = "New_York_City_StrataMind_Report.pdf".
Proof.
  assert (H : anyChar isSpace "Tokyo" = false) by reflexivity.
  split; [exact H|]. split; [|reflexivity].
  exact (proj2 (proj2 (proj2
           (X19_no_space_in_file_name_and_search "Tokyo" ""))) H).
Defined.

(** X20: the report and the viewer agree on the smart layer: the report
    describes layer 2 as indigo exactly when the lower-cased material text
    contains "self-healing" or "graphene", and for such a text the viewer's
    inner material ring is drawn in the bright indigo "#818cf8". *)
Theorem X20_report_indigo_matches_inner_ring
  (p : Props) (r : Recommendations) (s : string) :
  recommendations (params p) = Some r ->
  material r = Some s ->
  let mat := JS.toLowerCase s in
  (snd (Dashboard.layer2 s) = "Indigo - Active Repair System"
   <-> JS.includes mat "self-healing" || JS.includes mat "graphene" = true)
  /\ (snd (Dashboard.layer2 s) = "Indigo - Active Repair System" ->
      layerColor p = "#818cf8").
Proof.
  intros Hr Hm mat.
  assert (Hrec : materialRec (params p) = mat).
  { unfold materialRec. rewrite Hr, Hm. cbn [option_map].
    apply str_or_empty. }
  assert (Hiff : snd (Dashboard.layer2 s) = "Indigo - Active Repair System"
                 <-> JS.includes mat "self-healing"
                     || JS.includes mat "graphene" = true).
  { unfold Dashboard.layer2. fold mat.
    destruct (JS.includes mat "self-healing" || JS.includes mat "graphene").
    - split; reflexivity.
    - destruct (JS.includes mat "living" || JS.includes mat "bio"
                || JS.includes mat "algae");
        [|destruct (JS.includes mat "carbon" || JS.includes mat "titanium")];
        split; discriminate. }
  split; [exact Hiff|].
  intro H. apply Hiff in H.
  unfold layerColor. rewrite Hrec.
  apply orb_true_iff in H as [H|H]; rewrite H; [reflexivity|].
  destruct (JS.includes mat "self-healing"); reflexivity.
Qed.

Lemma X20_report_indigo_matches_inner_ring_witness :
  recommendations (params scenarioProps)
  = Some {| structure := Some "Diagrid Exoskeleton with Outrigger Belts";
            material := Some "Self-Healing Graphene Composite" |}
  /\ snd (Dashboard.layer2 "Self-Healing Graphene Composite")
     = "Indigo - Active Repair System"
  /\ layerColor scenarioProps = "#818cf8".
Proof.
  assert (H1 : recommendations (params scenarioProps)
               = Some {| structure :=
                           Some "Diagrid Exoskeleton with Outrigger Belts";
                         material :=
                           Some "Self-Healing Graphene Composite" |})
    by reflexivity.
  assert (H2 : snd (Dashboard.layer2 "Self-Healing Graphene Composite")
               = "Indigo - Active Repair System") by reflexivity.
  split; [exact H1|]. split; [exact H2|].
  exact (proj2 (X20_report_indigo_matches_inner_ring scenarioProps _ _
                  H1 eq_refl) H2).
Defined.

(** X21: the report's smart facade line names the first feature that
    contains "Bio-Skin" or "Glass"; when no feature does, and when there are
    no features at all, it reads "Standard Glazing".  It is never empty. *)
Theorem X21_smart_facade_line (features : list string) :
  let keyword f := JS.includes f "Bio-Skin" || JS.includes f "Glass" in
  (existsb keyword features = false ->
   Dashboard.smartFacade features = "Standard Glazing")
  /\ (existsb keyword features = true ->
      exists before after,
        features = (before ++ Dashboard.smartFacade features :: after)%list
        /\ existsb keyword before = false
        /\ keyword (Dashboard.smartFacade features) = true)
  /\ Dashboard.smartFacade features <> "".
Proof.
  intro keyword.
  assert (Hne : forall f, keyword f = true -> f <> "").
  { intros f Hf ->. discriminate Hf. }
  unfold Dashboard.smartFacade. fold keyword.
  induction features as [|f fs IH].
  - repeat split; discriminate.
  - cbn [List.find existsb].
    destruct (keyword f) eqn:Ef.
    + assert (Hs : JS.str_or (Some f) "Standard Glazing" = f).
      { destruct f; [discriminate Ef | reflexivity]. }
      rewrite Hs. split; [discriminate|]. split.
      * intros _. exists [], fs. repeat split; assumption || reflexivity.
      * apply Hne. exact Ef.
    + destruct IH as (IH1 & IH2 & IH3). cbn [orb].
      split; [exact IH1|]. split; [|exact IH3].
      intro H. destruct (IH2 H) as (before & after & E & Hb & Hk).
      exists (f :: before), after. split; [|split].
      * cbn. f_equal. exact E.
      * cbn [existsb]. rewrite Ef, Hb. reflexivity.
      * exact Hk.
Qed.

Lemma X21_smart_facade_line_witness :
  existsb (fun f => JS.includes f "Bio-Skin" || JS.includes f "Glass")
    ["Tuned Mass Damper"; "Sky Gardens"] = false
  /\ Dashboard.smartFacade ["Tuned Mass Damper"; "Sky Gardens"]
     = "Standard Glazing"
  /\ Dashboard.smartFacade
       ["Tuned Mass Damper"; "Electrochromic Glass"; "Bio-Skin Facade"]
     = "Electrochromic Glass".
Proof.
  assert (H : existsb
                (fun f => JS.includes f "Bio-Skin" || JS.includes f "Glass")
                ["Tuned Mass Damper"; "Sky Gardens"] = false)
    by reflexivity.
  split; [exact H|]. split; [|reflexivity].
  exact (proj1 (X21_smart_facade_line ["Tuned Mass Damper"; "Sky Gardens"]) H).
Defined.

(** ** Which floors carry which layer *)

Lemma below_30_cases (P : nat -> Prop) :
  (forall i, In i (seq 0 30) -> P i) -> forall i, (i < 30)%nat -> P i.
Proof.
  intros H i Hi. apply H. apply in_seq. lia.
Qed.

(** X22: of the 30 floors only floor 15 carries a mechanical block, and
    only floor 15 carries the four callouts, and those only in cutaway mode;
    balconies are mounted on floors 5, 10, 15, 20 and 25 while cutaway is
    off; the insulation ring is mounted on every third floor in cutaway mode;
    the belt truss on floors 0, 10 and 20 when the structure text asks for
    outriggers. *)
Theorem X22_floor_census (p : Props) (i : nat) (fg : FloorGroup) :
  nth_error (s_floors (DetailedBuilding p)) i = Some fg ->
  mountedOpt (g_mechanical fg) = (i =? 15)%nat
  /\ List.length (floorLabels fg)
     = (if isCutaway p && (i =? 15)%nat then 4%nat else 0%nat)
  /\ List.length (g_balconies fg)
     = (if negb (isCutaway p) && existsb (Nat.eqb i) [5; 10; 15; 20; 25]%nat
        then 4%nat else 0%nat)
  /\ mountedOpt (match g_cutaway fg with
                 | Some c => damping c
                 | None => None
                 end)
     = isCutaway p && (i mod 3 =? 0)%nat
  /\ mountedOpt (g_outrigger fg)
     = hasOutriggers (topology (structureRec (params p)))
       && existsb (Nat.eqb i) [0; 10; 20]%nat.
Proof.
  intro Hfg.
  assert (Hi : (i < 30)%nat).
  { change 30%nat with floorCount.
    rewrite <- (floors_length (params p)).
    unfold DetailedBuilding in Hfg; cbn [s_floors] in Hfg.
    rewrite <- (mapi_length (floorGroup p)).
    apply nth_error_Some. congruence. }
  rewrite (scene_floor p i Hi) in Hfg. injection Hfg as <-.
  unfold floorLabels, floorGroup;
    cbn [g_mechanical g_cutaway g_balconies g_outrigger].
  unfold outrigger, cutawayLayers.
  revert i Hi. apply below_30_cases. intros i Hin.
  destruct (isCutaway p),
    (hasOutriggers (topology (structureRec (params p))));
    cbn [negb andb labels damping];
    repeat (destruct Hin as [<- | Hin];
            [repeat split; reflexivity|]);
    destruct Hin.
Qed.

Lemma X22_floor_census_witness :
  nth_error (s_floors (DetailedBuilding scenarioProps)) 10
  = Some (floorGroup scenarioProps 10
            (floorAt (taperRatio (params scenarioProps))
                     (twistTotal (params scenarioProps)) 10))
  /\ mountedOpt
       (g_outrigger
          (floorGroup scenarioProps 10
             (floorAt (taperRatio (params scenarioProps))
                      (twistTotal (params scenarioProps)) 10)))
     = true.
Proof.
  assert (H : nth_error (s_floors (DetailedBuilding scenarioProps)) 10
              = Some (floorGroup scenarioProps 10
                        (floorAt (taperRatio (params scenarioProps))
                                 (twistTotal (params scenarioProps)) 10))).
  { apply scene_floor. unfold floorCount. lia. }
  split; [exact H|].
  exact (proj2 (proj2 (proj2 (proj2
           (X22_floor_census scenarioProps 10 _ H))))).
Defined.

Lemma upper_char_not_lower (c : ascii) : JS.is_lower (JS.upper_char c) = false.
Proof. destruct c as [[] [] [] [] [] [] [] []]; reflexivity. Qed.

Lemma toUpperCase_no_lower (s : string) :
  anyChar JS.is_lower (JS.toUpperCase s) = false.
Proof.
  induction s as [|c s IH]; [reflexivity|].
  simpl. rewrite upper_char_not_lower, IH. reflexivity.
Qed.

(** X23: the four callouts are written in capitals throughout: none of
    their texts contains a lower-case letter, whatever the material and
    structure texts; the material callout names the resolved style. *)
Theorem X23_callouts_are_upper_case (p : Props) :
  Forall (fun l => anyChar JS.is_lower (text l) = false) (xrayLabels p)
  /\ map text (xrayLabels p)
     = [ "CORE RIBS: "
         ++ (if JS.includes (structureRec (params p)) "steel"
             then "STEEL" else "REINFORCED CONCRETE");
         "MATERIAL CORE: "
         ++ JS.toUpperCase (name (materialStyle (materialRec (params p))));
         "ACTIVE INSULATION / DAMPING";
         "ADAPTIVE FACADE SKIN" ]
  /\ In (name (materialStyle (materialRec (params p))))
       [ "Eco-Resilient Bio-Skin"; "Advanced Composite Alloy";
         "Smart Nano-Structure"; "UHPC Geopolymer";
         "Resilient Hybrid Composite" ].
Proof.
  split; [|split; [reflexivity|]].
  - unfold xrayLabels.
    repeat constructor; cbn [text].
    + destruct (JS.includes _ "steel"); reflexivity.
    + rewrite anyChar_append, toUpperCase_no_lower. reflexivity.
  - unfold materialStyle.
    repeat match goal with
           | |- context [if ?b then _ else _] => destruct b
           end; simpl; tauto.
Qed.

(** ** Window frames and balconies *)

(** X24: every window frame of a floor stands at height 1 on the circle of
    radius [5 * scale] about the axis and is turned about the vertical by the
    angle it stands at; every balcony stands at height 1 on the circle of the
    balcony radius at a quarter turn from the next. *)
Theorem X24_frames_and_balconies_on_circles
  (p : Props) (fl : Floor.t) (m : Mesh.t) :
  (In m (windowFrames p fl) ->
   exists angle : R,
     Mesh.position m
     = (cos angle * (5.0 * Floor.scale fl), 1,
        sin angle * (5.0 * Floor.scale fl))
     /\ Mesh.rotation m = (0, angle, 0)
     /\ dist2 (fst (fst (Mesh.position m)), snd (Mesh.position m))
        = (5.0 * Floor.scale fl) * (5.0 * Floor.scale fl))
  /\ (In m (map (balcony p fl) [0; 90; 180; 270]) ->
      exists k : nat,
        (k < 4)%nat
        /\ Mesh.rotation m = (0, INR k * 90 * PI / 180, 0)
        /\ snd (fst (Mesh.position m)) = 1
        /\ dist2 (fst (fst (Mesh.position m)), snd (Mesh.position m))
           = balconyRadius p fl * balconyRadius p fl).
Proof.
  split.
  - unfold windowFrames. intro H. apply in_map_iff in H as (j & <- & _).
    exists (INR j / INR (segments p) * PI * 2).
    unfold windowFrame; cbn [Mesh.position Mesh.rotation fst snd].
    split; [reflexivity|]. split; [reflexivity|].
    unfold dist2; cbn [fst snd].
    pose proof (sin2_cos2 (INR j / INR (segments p) * PI * 2)) as Hsc.
    unfold Rsqr in Hsc. nra.
  - intro H. simpl in H.
    assert (Hcirc : forall a,
      dist2 (fst (fst (Mesh.position (balcony p fl a))),
             snd (Mesh.position (balcony p fl a)))
      = balconyRadius p fl * balconyRadius p fl).
    { intro a. unfold balcony; cbn [Mesh.position fst snd].
      unfold dist2; cbn [fst snd].
      pose proof (sin2_cos2 (a * PI / 180)) as Hsc.
      unfold Rsqr in Hsc. nra. }
    destruct H as [<- | [<- | [<- | [<- | []]]]];
      [exists 0%nat | exists 1%nat | exists 2%nat | exists 3%nat];
      (split; [lia|]); (split; [|split; [reflexivity | apply Hcirc]]);
      unfold balcony; cbn [Mesh.rotation]; simpl INR;
      f_equal; f_equal; lra.
Qed.

Lemma X24_frames_and_balconies_on_circles_witness :
  In (balcony scenarioProps (floorAt 1 0 5) 90)
     (map (balcony scenarioProps (floorAt 1 0 5)) [0; 90; 180; 270])
  /\ dist2 (fst (fst (Mesh.position
                        (balcony scenarioProps (floorAt 1 0 5) 90))),
            snd (Mesh.position (balcony scenarioProps (floorAt 1 0 5) 90)))
     = balconyRadius scenarioProps (floorAt 1 0 5)
       * balconyRadius scenarioProps (floorAt 1 0 5).
Proof.
  assert (H : In (balcony scenarioProps (floorAt 1 0 5) 90)
                (map (balcony scenarioProps (floorAt 1 0 5))
                     [0; 90; 180; 270]))
    by (right; left; reflexivity).
  split; [exact H|].
  destruct (proj2 (X24_frames_and_balconies_on_circles scenarioProps
                     (floorAt 1 0 5) _) H)
    as (k & _ & _ & _ & Hd).
  exact Hd.
Defined.

(** ** Quake followed by rest, flood followed by recession *)

Lemma groupSteps_decay (params : Params) (fs : list Frame) (g : Euler.t) :
  notQuaking fs ->
  Euler.z (groupSteps params fs g) = 0.9 ^ List.length fs * Euler.z g
  /\ Euler.x (groupSteps params fs g) = 0.9 ^ List.length fs * Euler.x g.
Proof.
  intro Hfs. revert g. induction Hfs as [|a fs Ha _ IH]; intro g.
  - simpl. split; lra.
  - change (groupSteps params (a :: fs) g)
      with (groupSteps params fs (groupStep params g a)).
    destruct (IH (groupStep params g a)) as [Hz Hx].
    destruct (groupStep_not_quake params g a Ha) as [Ez Ex].
    rewrite Hz, Hx, Ez, Ex. cbn [List.length pow]. split; ring.
Qed.

Lemma quake_tilt (params : Params) (cut : bool) (time : R) (g : Euler.t) :
  Rabs (Euler.z (seismic params cut (Some quake) time g))
  <= 2 * seismicPGA params
  /\ Rabs (Euler.x (seismic params cut (Some quake) time g))
     <= 2 * seismicPGA params.
Proof.
  unfold seismic; cbn [mode_is Sim_eqb Euler.x Euler.z].
  pose proof (seismicPGA_tier params) as Htier.
  pose proof (SIN_bound (time * 5)) as Hs5.
  pose proof (COS_bound (time * 4)) as Hc4.
  assert (Hpos : 0 <= seismicPGA params) by (destruct Htier as [-> | ->]; lra).
  split.
  - replace (sin (time * 5) * seismicPGA params * 2)
      with (sin (time * 5) * (2 * seismicPGA params)) by ring.
    apply Rabs_scaled_le; lra.
  - replace (cos (time * 4) * seismicPGA params * 2)
      with (cos (time * 4) * (2 * seismicPGA params)) by ring.
    apply Rabs_scaled_le; lra.
Qed.

(** X25: [n] frames after the last quake frame, whatever simulation is
    active in them, roll and pitch are within [2 * seismicPGA * 0.9 ^ n] of
    upright, hence within [0.1 * 0.9 ^ n]. *)
Theorem X25_tilt_after_quake_stops
  (params : Params) (cut : bool) (time : R) (fs : list Frame)
  (r : Refs) (g : Euler.t) :
  notQuaking fs ->
  groupRef r = Some g ->
  exists g' : Euler.t,
    groupRef (runFrames params fs (useFrame params cut (Some quake) time r))
    = Some g'
    /\ Rabs (Euler.z g') <= 2 * seismicPGA params * 0.9 ^ List.length fs
    /\ Rabs (Euler.x g') <= 2 * seismicPGA params * 0.9 ^ List.length fs
    /\ 2 * seismicPGA params * 0.9 ^ List.length fs
       <= 0.1 * 0.9 ^ List.length fs.
Proof.
  intros Hfs Hg.
  set (g1 := seismic params cut (Some quake) time
               (baseRotation cut (Some quake) g)).
  exists (groupSteps params fs g1).
  split.
  { rewrite runFrames_groupRef. unfold useFrame; cbn [groupRef].
    rewrite Hg. reflexivity. }
  destruct (groupSteps_decay params fs g1 Hfs) as [Hz Hx].
  destruct (quake_tilt params cut time (baseRotation cut (Some quake) g))
    as [Bz Bx].
  fold g1 in Bz, Bx.
  assert (Hq : 0 <= 0.9 ^ List.length fs) by (apply pow_le; lra).
  rewrite Hz, Hx, !Rabs_mult, (Rabs_pos_eq _ Hq).
  pose proof (seismicPGA_tier params) as Htier.
  repeat split; nra.
Qed.

Lemma X25_tilt_after_quake_stops_witness :
  notQuaking [frameOf None 2; frameOf None 3]
  /\ groupRef mounted = Some {| Euler.x := 0; Euler.y := 0; Euler.z := 0 |}
  /\ exists g' : Euler.t,
       groupRef (runFrames emptyParams [frameOf None 2; frameOf None 3]
                   (useFrame emptyParams false (Some quake) 1 mounted))
       = Some g'
       /\ Rabs (Euler.z g') <= 2 * seismicPGA emptyParams * 0.9 ^ 2.
Proof.
  assert (H1 : notQuaking [frameOf None 2; frameOf None 3])
    by (repeat constructor; discriminate).
  assert (H2 : groupRef mounted
               = Some {| Euler.x := 0; Euler.y := 0; Euler.z := 0 |})
    by reflexivity.
  split; [exact H1|]. split; [exact H2|].
  destruct (X25_tilt_after_quake_stops emptyParams false 1 _ mounted _ H1 H2)
    as (g' & E & Hz & _).
  exists g'. split; [exact E | exact Hz].
Defined.

Lemma floodSteps_recede_closed
  (params : Params) (fs : list Frame) (w : Water.t) :
  notFlooding fs ->
  Water.position_y (floodSteps params fs w)
  = -5 + (Water.position_y w + 5) * 0.95 ^ List.length fs
  /\ Water.opacity (floodSteps params fs w)
     = Water.opacity w * 0.95 ^ List.length fs.
Proof.
  intro Hfs. revert w. induction Hfs as [|a fs Ha _ IH]; intro w.
  - simpl. split; lra.
  - change (floodSteps params (a :: fs) w)
      with (floodSteps params fs (floodStep params (f_mode a) w)).
    destruct (IH (floodStep params (f_mode a) w)) as [Hy Ho].
    rewrite Hy, Ho.
    assert (Hm : mode_is (f_mode a) flood = false).
    { destruct (f_mode a) as [[| |]|]; try reflexivity.
      contradiction Ha; reflexivity. }
    unfold floodStep. rewrite Hm. cbn [Water.position_y Water.opacity].
    unfold MathUtils.lerp. cbn [List.length pow].
    generalize (0.95 ^ List.length fs). intro q. split; nra.
Qed.

Lemma floodSteps_rise_closed
  (params : Params) (fs : list Frame) (w : Water.t) :
  flooding fs ->
  Water.position_y (floodSteps params fs w)
  = floodRisk params / 2
    - (floodRisk params / 2 - Water.position_y w) * 0.98 ^ List.length fs
  /\ Water.opacity (floodSteps params fs w)
     = 0.8 - (0.8 - Water.opacity w) * 0.98 ^ List.length fs.
Proof.
  intro Hfs. revert w. induction Hfs as [|a fs Ha _ IH]; intro w.
  - simpl. split; lra.
  - change (floodSteps params (a :: fs) w)
      with (floodSteps params fs (floodStep params (f_mode a) w)).
    destruct (IH (floodStep params (f_mode a) w)) as [Hy Ho].
    rewrite Hy, Ho, Ha.
    unfold floodStep; cbn [mode_is Sim_eqb Water.position_y Water.opacity].
    unfold MathUtils.lerp. cbn [List.length pow].
    generalize (0.98 ^ List.length fs). intro q.
    generalize (floodRisk params / 2). intro T. split; nra.
Qed.

(** X26: flood for [n] frames from rest and then anything but flood for
    [m] frames leaves the water at height
    [-5 + (T + 5) * (1 - 0.98 ^ n) * 0.95 ^ m] with opacity
    [0.8 * (1 - 0.98 ^ n) * 0.95 ^ m], for [T] half the tier target: the
    recession shrinks the excess over the resting state by 0.95 per frame. *)
Theorem X26_flood_then_recede_closed_form
  (params : Params) (rise recede : list Frame) :
  flooding rise -> notFlooding recede ->
  exists w : Water.t,
    waterRef (runFrames params recede (runFrames params rise mounted))
    = Some w
    /\ Water.position_y w
       = -5 + (floodRisk params / 2 + 5)
              * (1 - 0.98 ^ List.length rise) * 0.95 ^ List.length recede
    /\ Water.opacity w
       = 0.8 * (1 - 0.98 ^ List.length rise) * 0.95 ^ List.length recede.
Proof.
  intros Hrise Hrec.
  set (w0 := {| Water.position_y := -5; Water.opacity := 0 |}).
  exists (floodSteps params recede (floodSteps params rise w0)).
  split; [rewrite !runFrames_waterRef; reflexivity|].
  destruct (floodSteps_recede_closed params recede
              (floodSteps params rise w0) Hrec) as [Hy Ho].
  destruct (floodSteps_rise_closed params rise w0 Hrise) as [Ry Ro].
  rewrite Hy, Ho, Ry, Ro. cbn [Water.position_y Water.opacity w0].
  generalize (0.98 ^ List.length rise) (0.95 ^ List.length recede)
             (floodRisk params / 2).
  intros q1 q2 T. split; nra.
Qed.

Lemma X26_flood_then_recede_closed_form_witness :
  flooding [frameOf (Some flood) 0; frameOf (Some flood) 1]
  /\ notFlooding [frameOf (Some fire) 2]
  /\ exists w : Water.t,
       waterRef
         (runFrames emptyParams [frameOf (Some fire) 2]
            (runFrames emptyParams
               [frameOf (Some flood) 0; frameOf (Some flood) 1] mounted))
       = Some w
       /\ Water.opacity w = 0.8 * (1 - 0.98 ^ 2) * 0.95 ^ 1.
Proof.
  assert (H1 : flooding [frameOf (Some flood) 0; frameOf (Some flood) 1])
    by (repeat constructor).
  assert (H2 : notFlooding [frameOf (Some fire) 2])
    by (repeat constructor; discriminate).
  split; [exact H1|]. split; [exact H2|].
  destruct (X26_flood_then_recede_closed_form emptyParams _ _ H1 H2)
    as (w & E & _ & Ho).
  exists w. split; [exact E | exact Ho].
Defined.

(** ** Supported archetypes *)

Lemma supported_cases (ty : option string) :
  supportedArchetype ty = true ->
  In ty (map Some ["cylinder"; "hexagon"; "triangle"; "pyramid"; "prism";
                   "box"; "tapered"; "twisted"]).
Proof.
  unfold supportedArchetype. intro H.
  apply existsb_exists in H as (lit & Hin & Heq).
  apply strict_eq_true in Heq. subst ty.
  apply in_map. exact Hin.
Qed.

(** X27: for each of the eight supported archetypes every per-floor layer
    has a geometry, and the slab, facade, inner ring, insulation ring and
    mechanical block of a floor all have the same number of sides (32, 6, 3,
    4, 3, or the 4 of the box for box, tapered and twisted).  The belt truss
    has that number of sides too, except for the triangle, where it is the
    box. *)
Theorem X27_supported_archetype_layers_agree
  (p : Props) (fl : Floor.t) :
  let ty := type (geoParams (params p)) in
  let n := sides (Mesh.geometry (slab p fl)) in
  supportedArchetype ty = true ->
  drawn (slab p fl) = true
  /\ drawn (facade p fl) = true
  /\ drawn (innerLayer p fl) = true
  /\ drawn (insulation p fl) = true
  /\ drawn (mechanical p fl) = true
  /\ sides (Mesh.geometry (facade p fl)) = n
  /\ sides (Mesh.geometry (innerLayer p fl)) = n
  /\ sides (Mesh.geometry (insulation p fl)) = n
  /\ sides (Mesh.geometry (mechanical p fl)) = n
  /\ In n [32; 6; 3; 4]%nat
  /\ sides (Mesh.geometry (beltTruss p fl))
     = (if JS.strict_eq ty "triangle" then 4%nat else n).
Proof.
  intros ty n H. subst n.
  unfold drawn, slab, facade, innerLayer, insulation, mechanical, beltTruss,
    slabGeometry, facadeGeometry, innerLayerGeometry, insulationGeometry,
    mechanicalGeometry; cbn [Mesh.geometry].
  fold ty.
  apply supported_cases in H. cbn [map In] in H.
  repeat (destruct H as [<- | H];
          [cbn; repeat split; auto 10|]).
  destruct H.
Qed.

Lemma X27_supported_archetype_layers_agree_witness :
  supportedArchetype (type (geoParams (params scenarioProps))) = true
  /\ sides (Mesh.geometry (slab scenarioProps (floorAt 1 0 0))) = 32%nat
  /\ sides (Mesh.geometry (facade scenarioProps (floorAt 1 0 0)))
     = sides (Mesh.geometry (slab scenarioProps (floorAt 1 0 0))).
Proof.
  assert (H : supportedArchetype (type (geoParams (params scenarioProps)))
              = true) by reflexivity.
  split; [exact H|]. split; [reflexivity|].
  destruct (X27_supported_archetype_layers_agree scenarioProps
              (floorAt 1 0 0) H)
    as (_ & _ & _ & _ & _ & Hf & _).
  exact Hf.
Defined.
